(** * FinPro dashboard: the arithmetic core of [App.tsx]

    A shallow embedding of the pure computations of the dashboard
    ([calculateTaxes], [projectionData], [categoryData], [getPeriodData],
    [getEndDate]) together with the properties its specification states
    about them.

    Numbers.  A JavaScript [number] that carries a currency amount is
    modelled by an exact rational ([Q], compared with [==]); the decimal
    literals of the source are the same decimals here.  Rounding of IEEE
    doubles is therefore not part of the exact model, and an equation
    between sums proved on it is an equation of exact arithmetic.  Modules
    [Double] and [DoubleApp] repeat the computations on binary64 floats, so
    that concrete evaluations can be replayed with the rounding in place. *)

From Stdlib Require Import QArith Qminmax Lqa ZArith Lia List String Ascii Bool.
From Stdlib Require Import DecimalString Floats Uint63 Permutation.
Import ListNotations.

(** A decimal literal read as a binary64 number denotes the nearest double,
    as in the source. *)
Set Warnings "-inexact-float".

Open Scope Q_scope.

(** ** Data model ([src/types.ts]) *)

(** ['income' | 'variable_income' | 'fixed_expense' | 'variable_expense'] *)
Inductive TransactionType : Type :=
| income
| variable_income
| fixed_expense
| variable_expense.

Record Transaction : Type := {
  id : Z;
  description : string;
  amount : Q;
  type : TransactionType;
  category : string;
  date : string;
  is_recurring : bool;
  installments : option Z;
  start_date : option string
}.

Module Summary.
Record t : Type := {
  income : Q;
  variable_income : Q;
  fixed : Q;
  variable : Q;
  invested : Q
}.
End Summary.

(** [t.type === 'income' || t.type === 'variable_income'] *)
Definition isIncome (t : Transaction) : bool :=
  match type t with
  | income | variable_income => true
  | fixed_expense | variable_expense => false
  end.

(** [t.type === 'fixed_expense' || t.type === 'variable_expense'] *)
Definition isExpense (t : Transaction) : bool :=
  match type t with
  | fixed_expense | variable_expense => true
  | income | variable_income => false
  end.

(** [xs.reduce((s, t) => s + t.amount, 0)] *)
Definition sumAmounts (xs : list Transaction) : Q :=
  fold_left (fun s t => s + amount t) xs 0.

(** ** Tax estimator ([calculateTaxes]) *)

Record Taxes : Type := { inss : Q; irpf : Q; net : Q }.

(** The first cascade of [calculateTaxes]: the value assigned to [inss]. *)
Definition inssOf (grossIncome : Q) : Q :=
  if Qle_bool grossIncome 1412 then grossIncome * 0.075
  else if Qle_bool grossIncome 2666.68 then
    (1412 * 0.075) + (grossIncome - 1412) * 0.09
  else if Qle_bool grossIncome 4000.03 then
    (1412 * 0.075) + (1254.68 * 0.09) + (grossIncome - 2666.68) * 0.12
  else if Qle_bool grossIncome 7786.02 then
    (1412 * 0.075) + (1254.68 * 0.09) + (1333.35 * 0.12)
    + (grossIncome - 4000.03) * 0.14
  else 908.85.

(** The second cascade of [calculateTaxes]: the value assigned to [irpf]. *)
Definition irpfOf (baseCalculo : Q) : Q :=
  if Qle_bool baseCalculo 2259.20 then 0
  else if Qle_bool baseCalculo 2826.65 then (baseCalculo * 0.075) - 169.44
  else if Qle_bool baseCalculo 3751.05 then (baseCalculo * 0.15) - 381.44
  else if Qle_bool baseCalculo 4664.68 then (baseCalculo * 0.225) - 662.77
  else (baseCalculo * 0.275) - 896.00.

Definition calculateTaxes (grossIncome : Q) : Taxes :=
  let inss := inssOf grossIncome in
  let baseCalculo := grossIncome - inss in
  let irpf := irpfOf baseCalculo in
  {| inss := inss; irpf := irpf; net := grossIncome - inss - irpf |}.

(** The taxable base the estimator hands to the income-tax table. *)
Definition baseCalculoOf (grossIncome : Q) : Q :=
  grossIncome - inss (calculateTaxes grossIncome).

(** The same estimator on IEEE binary64 numbers, operation for operation. *)
Module Double.

Local Open Scope float_scope.

Record Taxes : Type := { inss : float; irpf : float; net : float }.

Definition calculateTaxes (grossIncome : float) : Taxes :=
  let inss :=
    if grossIncome <=? 1412 then grossIncome * 0.075
    else if grossIncome <=? 2666.68 then
      (1412 * 0.075) + (grossIncome - 1412) * 0.09
    else if grossIncome <=? 4000.03 then
      (1412 * 0.075) + (1254.68 * 0.09) + (grossIncome - 2666.68) * 0.12
    else if grossIncome <=? 7786.02 then
      (1412 * 0.075) + (1254.68 * 0.09) + (1333.35 * 0.12)
      + (grossIncome - 4000.03) * 0.14
    else 908.85 in
  let baseCalculo := grossIncome - inss in
  let irpf :=
    if baseCalculo <=? 2259.20 then 0
    else if baseCalculo <=? 2826.65 then (baseCalculo * 0.075) - 169.44
    else if baseCalculo <=? 3751.05 then (baseCalculo * 0.15) - 381.44
    else if baseCalculo <=? 4664.68 then (baseCalculo * 0.225) - 662.77
    else (baseCalculo * 0.275) - 896.00 in
  {| inss := inss; irpf := irpf; net := grossIncome - inss - irpf |}.

End Double.

(** ** Dates

    A JavaScript [Date] is modelled by what its local-time getters report:
    either the calendar fields (full year, month, day of month) or
    [Invalid Date].  The time of day is never read by the code below and
    is left out; so is the range limit of [Date] (years beyond +-275760). *)

Inductive Month : Type :=
| Jan | Feb | Mar | Apr | May | Jun | Jul | Aug | Sep | Oct | Nov | Dec.

Record CalendarDate : Type := {
  fullYear : Z;
  month : Month;
  dayOfMonth : Z
}.

Inductive JsDate : Type :=
| InvalidDate
| ValidDate (d : CalendarDate).

(** The number [Date.prototype.getMonth] reports, 0 for January. *)
Definition monthIndex (m : Month) : Z :=
  match m with
  | Jan => 0 | Feb => 1 | Mar => 2 | Apr => 3 | May => 4 | Jun => 5
  | Jul => 6 | Aug => 7 | Sep => 8 | Oct => 9 | Nov => 10 | Dec => 11
  end%Z.

(** Month number to month, modulo 12 as [MakeDay] reduces it. *)
Definition monthOfIndex (i : Z) : Month :=
  match (i mod 12)%Z with
  | 0 => Jan | 1 => Feb | 2 => Mar | 3 => Apr | 4 => May | 5 => Jun
  | 6 => Jul | 7 => Aug | 8 => Sep | 9 => Oct | 10 => Nov | _ => Dec
  end%Z.

Definition isLeapYear (y : Z) : bool :=
  ((y mod 4 =? 0) && negb (y mod 100 =? 0) || (y mod 400 =? 0))%Z.

Definition daysInMonth (y : Z) (m : Month) : Z :=
  match m with
  | Feb => if isLeapYear y then 29 else 28
  | Apr | Jun | Sep | Nov => 30
  | _ => 31
  end%Z.

(** A JavaScript number that may be [NaN]: what date-fns getters return. *)
Definition getMonth (d : JsDate) : option Z :=
  match d with
  | InvalidDate => None
  | ValidDate c => Some (monthIndex (month c))
  end.

Definition getYear (d : JsDate) : option Z :=
  match d with
  | InvalidDate => None
  | ValidDate c => Some (fullYear c)
  end.

(** date-fns [getQuarter]: [Math.trunc(getMonth(d) / 3) + 1]. *)
Definition getQuarter (d : JsDate) : option Z :=
  match getMonth d with
  | None => None
  | Some m => Some (m / 3 + 1)%Z
  end.

(** [x === n] for a possibly-[NaN] number [x] and an integer [n]. *)
Definition strictEq (x : option Z) (n : Z) : bool :=
  match x with
  | None => false
  | Some v => (v =? n)%Z
  end.

(** [d.setMonth(i, 0)] read back through the getters: day 0 of month [i]
    is the last day of the month before it; the month number is carried
    into the year by floor division, as [MakeDay] does. *)
Definition lastDayBefore (y : Z) (i : Z) : CalendarDate :=
  let y' := (y + (i - 1) / 12)%Z in
  let m' := monthOfIndex (i - 1) in
  {| fullYear := y'; month := m'; dayOfMonth := daysInMonth y' m' |}.

(** date-fns [addMonths(date, amount)] on a valid date, following its
    implementation: no-op for 0 months; otherwise take the end of the
    desired month ([setMonth(getMonth() + amount + 1, 0)]) and keep it when
    the original day of month does not fit, else set the original day of
    month in the desired month. *)
Definition addMonthsValid (c : CalendarDate) (amount : Z) : CalendarDate :=
  if (amount =? 0)%Z then c
  else
    let dayOfMonth_ := dayOfMonth c in
    let endOfDesiredMonth :=
      lastDayBefore (fullYear c) (monthIndex (month c) + amount + 1) in
    let daysInMonth_ := dayOfMonth endOfDesiredMonth in
    if (dayOfMonth_ >=? daysInMonth_)%Z then endOfDesiredMonth
    else {| fullYear := fullYear endOfDesiredMonth;
            month := month endOfDesiredMonth;
            dayOfMonth := dayOfMonth_ |}.

(** [addMonths] on any [Date]: an invalid date stays invalid.  The range
    of [Date] is not part of this definition: where the code, for a result
    beyond year 275760 or before year -271821, has [Invalid Date], this
    definition still has the calendar day. *)
Definition addMonths (date : JsDate) (amount : Z) : JsDate :=
  match date with
  | InvalidDate => InvalidDate
  | ValidDate c => ValidDate (addMonthsValid c amount)
  end.

(** Outcome of a call that may throw. *)
Inductive Completion (A : Type) : Type :=
| Returns (a : A)
| ThrowsRangeError.
Arguments Returns {A} a.
Arguments ThrowsRangeError {A}.

(** [String(n)] for an integer [n]. *)
Definition numberToString (n : Z) : string :=
  NilZero.string_of_int (Z.to_int n).

Fixpoint repeatZero (k : nat) : string :=
  match k with
  | O => EmptyString
  | S k' => String "0" (repeatZero k')
  end.

(** date-fns [addLeadingZeros(number, targetLength)]: sign, then
    [Math.abs(number).toString().padStart(targetLength, "0")]. *)
Definition addLeadingZeros (number : Z) (targetLength : nat) : string :=
  let sign := if (number <? 0)%Z then "-"%string else ""%string in
  let digits := numberToString (Z.abs number) in
  (sign ++ repeatZero (targetLength - String.length digits) ++ digits)%string.

(** date-fns [format(date, 'MM/yyyy')]: throws on an invalid date; [MM] is
    the month number from 1 on two digits, [yyyy] the calendar year on four
    digits, where a year [y <= 0] is written [1 - y]. *)
Definition format_MM_yyyy (date : JsDate) : Completion string :=
  match date with
  | InvalidDate => ThrowsRangeError
  | ValidDate c =>
      let signedYear := fullYear c in
      let year := if (signedYear >? 0)%Z then signedYear else (1 - signedYear)%Z in
      Returns (addLeadingZeros (monthIndex (month c) + 1) 2 ++ "/"
               ++ addLeadingZeros year 4)%string
  end.

(** [format(date, 'MMM', { locale: ptBR })] for a valid date. *)
Definition format_MMM_ptBR (m : Month) : string :=
  match m with
  | Jan => "jan" | Feb => "fev" | Mar => "mar" | Apr => "abr"
  | May => "mai" | Jun => "jun" | Jul => "jul" | Aug => "ago"
  | Sep => "set" | Oct => "out" | Nov => "nov" | Dec => "dez"
  end%string.

(** [format(date, 'MMMM', { locale: ptBR })] for a valid date. *)
Definition format_MMMM_ptBR (m : Month) : string :=
  match m with
  | Jan => "janeiro" | Feb => "fevereiro" | Mar => "março" | Apr => "abril"
  | May => "maio" | Jun => "junho" | Jul => "julho" | Aug => "agosto"
  | Sep => "setembro" | Oct => "outubro" | Nov => "novembro"
  | Dec => "dezembro"
  end%string.

(** ** Results handed to the views *)

Module ProjectionPoint.
Record t : Type := { month : string; balance : Q }.
End ProjectionPoint.

Module PeriodRow.
Record t : Type := { label : string; income : Q; expenses : Q }.
End PeriodRow.

(** ['monthly' | 'quarterly' | 'semi-annual' | 'annual'] *)
Inductive Period : Type :=
| monthly
| quarterly
| semi_annual
| annual.

(** ** The object used as accumulator by [categoryData]

    The accumulator is the object literal [{}], keyed by category label.
    Its own properties are kept in the order of their creation; a label
    the object does not own is looked up on [Object.prototype].  A stored
    value is a number or, once a label has met a property of
    [Object.prototype], a string. *)

Inductive JsValue (N : Type) : Type :=
| Undefined
| Num (n : N)
| Inherited (key : string)
| Text (key : string) (appended : list N).
Arguments Undefined {N}.
Arguments Num {N} n.
Arguments Inherited {N} key.
Arguments Text {N} key appended.

(** [Inherited k] is the value of [Object.prototype[k]], a function or, for
    [__proto__], the prototype object itself; [Text k ns] is the string
    made of the text of that value followed by the decimal texts of the
    numbers [ns], in this order. *)

Module CategoryEntry.
Record t (N : Type) : Type := { name : string; value : JsValue N }.
Arguments name {N} _.
Arguments value {N} _.
End CategoryEntry.

(** The own properties of an object, oldest first. *)
Definition Obj (N : Type) : Type := list (string * JsValue N).

(** The property names of [Object.prototype]. *)
Definition objectPrototypeKeys : list string :=
  [ "constructor"; "__defineGetter__"; "__defineSetter__"; "hasOwnProperty";
    "__lookupGetter__"; "__lookupSetter__"; "isPrototypeOf";
    "propertyIsEnumerable"; "toString"; "valueOf"; "__proto__";
    "toLocaleString" ]%string.

Definition onObjectPrototype (k : string) : bool :=
  existsb (String.eqb k) objectPrototypeKeys.

(** The own property [k], if any. *)
Fixpoint ownProp {N : Type} (acc : Obj N) (k : string) : option (JsValue N) :=
  match acc with
  | [] => None
  | (k', v) :: rest => if String.eqb k' k then Some v else ownProp rest k
  end.

(** Create or overwrite the own property [k]. *)
Fixpoint ownSet {N : Type} (acc : Obj N) (k : string) (v : JsValue N) : Obj N :=
  match acc with
  | [] => [(k, v)]
  | (k', v') :: rest =>
      if String.eqb k' k then (k', v) :: rest
      else (k', v') :: ownSet rest k v
  end.

(** [acc[k]]: the own property, else the inherited one, else [undefined]. *)
Definition getProp {N : Type} (acc : Obj N) (k : string) : JsValue N :=
  match ownProp acc k with
  | Some v => v
  | None => if onObjectPrototype k then Inherited k else Undefined
  end.

(** [acc[k] = v] for a number or a string [v]: the setter of [__proto__]
    ignores such a value; any other label becomes or stays an own
    property. *)
Definition setProp {N : Type} (acc : Obj N) (k : string) (v : JsValue N)
  : Obj N :=
  if String.eqb k "__proto__" then acc else ownSet acc k v.

(** [(x || 0) + amount]: [undefined] and a falsy number give way to 0 and
    numbers add; a function, an object or a string is truthy and [+]
    appends the text of the number to its text. *)
Definition orZeroPlus {N : Type} (falsy : N -> bool) (zero : N)
           (add : N -> N -> N) (x : JsValue N) (amount : N) : JsValue N :=
  match x with
  | Undefined => Num (add zero amount)
  | Num n => Num (add (if falsy n then zero else n) amount)
  | Inherited k => Text k [amount]
  | Text k ns => Text k (ns ++ [amount])
  end.

Definition digitOf (c : ascii) : option Z :=
  let n := Z.of_N (N_of_ascii c) in
  if ((48 <=? n) && (n <=? 57))%Z then Some (n - 48)%Z else None.

Fixpoint digitsOf (cs : list ascii) (acc : Z) : option Z :=
  match cs with
  | [] => Some acc
  | c :: rest =>
      match digitOf c with
      | Some v => digitsOf rest (10 * acc + v)%Z
      | None => None
      end
  end.

(** A property name that is an array index: the canonical decimal text of
    an integer from 0 to 2^32 - 2. *)
Definition arrayIndex (k : string) : option Z :=
  match list_ascii_of_string k with
  | [] => None
  | c :: rest =>
      if (Ascii.eqb c "0" && negb (Nat.eqb (List.length rest) 0))%bool
      then None
      else
        match digitsOf (c :: rest) 0 with
        | Some n => if (n <? 4294967295)%Z then Some n else None
        | None => None
        end
  end.

Fixpoint insertByIndex {A : Type} (i : Z) (x : A) (sorted : list (Z * A))
  : list (Z * A) :=
  match sorted with
  | [] => [(i, x)]
  | (j, y) :: rest =>
      if (i <=? j)%Z then (i, x) :: sorted
      else (j, y) :: insertByIndex i x rest
  end.

(** The own properties in the order of [Object.entries]: array indices in
    ascending order first, then the other names in order of creation. *)
Definition objectEntries {N : Type} (acc : Obj N)
  : list (string * JsValue N) :=
  let indexed :=
    fold_right
      (fun kv sorted =>
         match arrayIndex (fst kv) with
         | Some i => insertByIndex i kv sorted
         | None => sorted
         end)
      [] acc in
  (map snd indexed
   ++ filter (fun kv => match arrayIndex (fst kv) with
                        | Some _ => false
                        | None => true
                        end) acc)%list.

Definition TransactionType_eqb (a b : TransactionType) : bool :=
  match a, b with
  | income, income
  | variable_income, variable_income
  | fixed_expense, fixed_expense
  | variable_expense, variable_expense => true
  | _, _ => false
  end.

(** [x < n] and [x >= n] for a possibly-[NaN] number [x]. *)
Definition ltNum (x : option Z) (n : Z) : bool :=
  match x with None => false | Some v => (v <? n)%Z end.

Definition geNum (x : option Z) (n : Z) : bool :=
  match x with None => false | Some v => (v >=? n)%Z end.

(** ** The computations of [App] and [ReportsView] *)

Section App.

(** [new Date(s)] for a string [s], as the host's engine and time zone
    read it. *)
Variable newDate : string -> JsDate.

(** [new Date()]: the current day, always a valid date. *)
Variable today : CalendarDate.

Variable transactions : list Transaction.
Variable summary : Summary.t.

Definition getEndDate (startDate : string) (installments : Z)
  : Completion string :=
  format_MM_yyyy (addMonths (newDate startDate) (installments - 1)).

(** The callback of the [reduce] of [categoryData]. *)
Definition categoryStep (acc : Obj Q) (t : Transaction) : Obj Q :=
  if negb (TransactionType_eqb (type t) income)
     && negb (TransactionType_eqb (type t) variable_income)
  then setProp acc (category t)
         (orZeroPlus (fun n => Qeq_bool n 0) 0 Qplus
                     (getProp acc (category t)) (amount t))
  else acc.

(** The object built by the [reduce] of [categoryData]. *)
Definition categoryTotals : Obj Q :=
  fold_left categoryStep transactions [].

(** [Object.entries(...).map(([name, value]) => ({ name, value }))] *)
Definition categoryData : list (CategoryEntry.t Q) :=
  map (fun '(name, value) =>
         {| CategoryEntry.name := name; CategoryEntry.value := value |})
      (objectEntries categoryTotals).

Definition recurringExpenses : Q :=
  sumAmounts
    (filter (fun t => is_recurring t
                      && (TransactionType_eqb (type t) fixed_expense
                          || TransactionType_eqb (type t) variable_expense))
            transactions).

Definition recurringIncome : Q :=
  sumAmounts
    (filter (fun t => is_recurring t
                      && (TransactionType_eqb (type t) income
                          || TransactionType_eqb (type t) variable_income))
            transactions).

(** [summary.income + summary.variable_income - summary.fixed
     - summary.variable] *)
Definition currentNetBalance : Q :=
  Summary.income summary + Summary.variable_income summary
  - Summary.fixed summary - Summary.variable summary.

(** The callback of [Array.from({ length: 6 }).map((_, i) => ...)]. *)
Definition projectionPoint (i : Z) : ProjectionPoint.t :=
  let month_ := addMonthsValid today i in
  {| ProjectionPoint.month := format_MMM_ptBR (month month_);
     ProjectionPoint.balance :=
       (recurringIncome - recurringExpenses) * inject_Z (i + 1)
       + currentNetBalance |}.

Definition projectionData : list ProjectionPoint.t :=
  map projectionPoint [0; 1; 2; 3; 4; 5]%Z.

(** "Estimativa em 1 Ano": [projectionData[5].balance * 2]. *)
Definition estimativaEm1Ano : option Q :=
  match nth_error projectionData 5 with
  | Some p => Some (ProjectionPoint.balance p * 2)
  | None => None
  end.

(** One pushed row: the income and expense totals of a bucket. *)
Definition periodRow (label : string) (bucket : list Transaction)
  : PeriodRow.t :=
  {| PeriodRow.label := label;
     PeriodRow.income := sumAmounts (filter isIncome bucket);
     PeriodRow.expenses := sumAmounts (filter isExpense bucket) |}.

Definition getPeriodData (period : Period) (currentYear : Z)
  : list PeriodRow.t :=
  match period with
  | monthly =>
      map (fun i =>
             let monthTransactions :=
               filter (fun t =>
                         let d := newDate (date t) in
                         strictEq (getMonth d) i
                         && strictEq (getYear d) currentYear)
                      transactions in
             periodRow (format_MMMM_ptBR (monthOfIndex i)) monthTransactions)
          [0; 1; 2; 3; 4; 5; 6; 7; 8; 9; 10; 11]%Z
  | quarterly =>
      map (fun i =>
             let quarterTransactions :=
               filter (fun t =>
                         let d := newDate (date t) in
                         strictEq (getQuarter d) i
                         && strictEq (getYear d) currentYear)
                      transactions in
             periodRow (numberToString i ++ "º Trimestre")%string
                       quarterTransactions)
          [1; 2; 3; 4]%Z
  | semi_annual =>
      map (fun i =>
             let semesterTransactions :=
               filter (fun t =>
                         let d := newDate (date t) in
                         let month_ := getMonth d in
                         (if (i =? 1)%Z then ltNum month_ 6
                          else geNum month_ 6)
                         && strictEq (getYear d) currentYear)
                      transactions in
             periodRow (numberToString i ++ "º Semestre")%string
                       semesterTransactions)
          [1; 2]%Z
  | annual =>
      let annualTransactions :=
        filter (fun t => strictEq (getYear (newDate (date t))) currentYear)
               transactions in
      [periodRow ("Ano " ++ numberToString currentYear)%string
                 annualTransactions]
  end.

End App.

(** ** An instance of [newDate]

    The date-only form [YYYY-MM-DD] that [<input type="date">] posts, naming
    a real calendar day.  ECMAScript reads it as midnight UTC, so the local
    calendar day is that day in a zone at or ahead of UTC and the day before
    in a zone behind UTC.  Every other string is answered [InvalidDate] by
    this instance (engines accept further forms and differ on them). *)

Definition previousDay (c : CalendarDate) : CalendarDate :=
  if (dayOfMonth c >? 1)%Z then
    {| fullYear := fullYear c; month := month c;
       dayOfMonth := (dayOfMonth c - 1)%Z |}
  else lastDayBefore (fullYear c) (monthIndex (month c)).

Definition isoDate (behindUTC : bool) (s : string) : JsDate :=
  match list_ascii_of_string s with
  | [y1; y2; y3; y4; h1; m1; m2; h2; d1; d2] =>
      if (Ascii.eqb h1 "-" && Ascii.eqb h2 "-")%bool then
        match digitsOf [y1; y2; y3; y4] 0, digitsOf [m1; m2] 0,
              digitsOf [d1; d2] 0 with
        | Some y, Some m, Some d =>
            if ((1 <=? m) && (m <=? 12) && (1 <=? d)
                && (d <=? daysInMonth y (monthOfIndex (m - 1))))%Z
            then
              let c := {| fullYear := y; month := monthOfIndex (m - 1);
                          dayOfMonth := d |} in
              ValidDate (if behindUTC then previousDay c else c)
            else InvalidDate
        | _, _, _ => InvalidDate
        end
      else InvalidDate
  | _ => InvalidDate
  end.

(** ** The same computations on binary64 numbers

    [App] once more with every amount an IEEE binary64 number, operation
    for operation, so that the sums the code really forms can be replayed
    with their rounding. *)

Module DoubleApp.

Local Open Scope float_scope.

Record Transaction : Type := {
  id : Z;
  description : string;
  amount : float;
  type : TransactionType;
  category : string;
  date : string;
  is_recurring : bool;
  installments : option Z;
  start_date : option string
}.

Module Summary.
Record t : Type := {
  income : float;
  variable_income : float;
  fixed : float;
  variable : float;
  invested : float
}.
End Summary.

Module PeriodRow.
Record t : Type := { label : string; income : float; expenses : float }.
End PeriodRow.

Definition isIncome (t : Transaction) : bool :=
  match type t with
  | income | variable_income => true
  | fixed_expense | variable_expense => false
  end.

Definition isExpense (t : Transaction) : bool :=
  match type t with
  | fixed_expense | variable_expense => true
  | income | variable_income => false
  end.

(** [xs.reduce((s, t) => s + t.amount, 0)] *)
Definition sumAmounts (xs : list Transaction) : float :=
  fold_left (fun s t => s + amount t) xs 0.

(** A number that is falsy: 0, -0 or [NaN]. *)
Definition falsy (n : float) : bool := (n =? 0) || PrimFloat.is_nan n.

Definition categoryStep (acc : Obj float) (t : Transaction) : Obj float :=
  if negb (TransactionType_eqb (type t) income)
     && negb (TransactionType_eqb (type t) variable_income)
  then setProp acc (category t)
         (orZeroPlus falsy 0 PrimFloat.add
                     (getProp acc (category t)) (amount t))
  else acc.

Definition categoryTotals (transactions : list Transaction) : Obj float :=
  fold_left categoryStep transactions [].

Definition categoryData (transactions : list Transaction)
  : list (CategoryEntry.t float) :=
  map (fun '(name, value) =>
         {| CategoryEntry.name := name; CategoryEntry.value := value |})
      (objectEntries (categoryTotals transactions)).

Definition recurringExpenses (transactions : list Transaction) : float :=
  sumAmounts
    (filter (fun t => is_recurring t
                      && (TransactionType_eqb (type t) fixed_expense
                          || TransactionType_eqb (type t) variable_expense))
            transactions).

Definition recurringIncome (transactions : list Transaction) : float :=
  sumAmounts
    (filter (fun t => is_recurring t
                      && (TransactionType_eqb (type t) income
                          || TransactionType_eqb (type t) variable_income))
            transactions).

(** The integer [z] as a number. *)
Definition ofZ (z : Z) : float :=
  if (z <? 0)%Z then - PrimFloat.of_uint63 (Uint63.of_Z (- z))
  else PrimFloat.of_uint63 (Uint63.of_Z z).

(** The field [balance] of the projection point of index [i]. *)
Definition projectionBalance (transactions : list Transaction)
           (summary : Summary.t) (i : Z) : float :=
  (recurringIncome transactions - recurringExpenses transactions)
  * ofZ (i + 1)
  + (Summary.income summary + Summary.variable_income summary
     - Summary.fixed summary - Summary.variable summary).

Definition periodRow (label : string) (bucket : list Transaction)
  : PeriodRow.t :=
  {| PeriodRow.label := label;
     PeriodRow.income := sumAmounts (filter isIncome bucket);
     PeriodRow.expenses := sumAmounts (filter isExpense bucket) |}.

Definition getPeriodData (newDate : string -> JsDate)
           (transactions : list Transaction) (period : Period)
           (currentYear : Z) : list PeriodRow.t :=
  match period with
  | monthly =>
      map (fun i =>
             let monthTransactions :=
               filter (fun t =>
                         let d := newDate (date t) in
                         strictEq (getMonth d) i
                         && strictEq (getYear d) currentYear)
                      transactions in
             periodRow (format_MMMM_ptBR (monthOfIndex i)) monthTransactions)
          [0; 1; 2; 3; 4; 5; 6; 7; 8; 9; 10; 11]%Z
  | quarterly =>
      map (fun i =>
             let quarterTransactions :=
               filter (fun t =>
                         let d := newDate (date t) in
                         strictEq (getQuarter d) i
                         && strictEq (getYear d) currentYear)
                      transactions in
             periodRow (numberToString i ++ "º Trimestre")%string
                       quarterTransactions)
          [1; 2; 3; 4]%Z
  | semi_annual =>
      map (fun i =>
             let semesterTransactions :=
               filter (fun t =>
                         let d := newDate (date t) in
                         let month_ := getMonth d in
                         (if (i =? 1)%Z then ltNum month_ 6
                          else geNum month_ 6)
                         && strictEq (getYear d) currentYear)
                      transactions in
             periodRow (numberToString i ++ "º Semestre")%string
                       semesterTransactions)
          [1; 2]%Z
  | annual =>
      let annualTransactions :=
        filter (fun t => strictEq (getYear (newDate (date t))) currentYear)
               transactions in
      [periodRow ("Ano " ++ numberToString currentYear)%string
                 annualTransactions]
  end.

(** The numbers of a list added up from the left, starting from 0. *)
Definition total (xs : list float) : float :=
  fold_left PrimFloat.add xs 0.

Definition mkTransaction (a : float) (ty : TransactionType)
           (cat day : string) (rec : bool) : Transaction :=
  {| id := 0; description := "sample"; amount := a; type := ty;
     category := cat; date := day; is_recurring := rec;
     installments := Some 1%Z; start_date := Some day |}.

Definition sampleExpenses : list Transaction :=
  [ mkTransaction 0.1 fixed_expense "A" "2025-01-10" false;
    mkTransaction 0.2 variable_expense "B" "2025-02-10" false;
    mkTransaction 0.3 variable_expense "B" "2025-02-20" false ].

Definition sampleIncomes : list Transaction :=
  [ mkTransaction 0.1 income "Salario" "2025-01-10" false;
    mkTransaction 0.2 variable_income "Extra" "2025-02-10" false;
    mkTransaction 0.3 variable_income "Extra" "2025-02-20" false ].

Definition sampleRecurring : list Transaction :=
  [ mkTransaction 2500.10 income "Salario" "2025-01-05" true;
    mkTransaction 1200.40 fixed_expense "Moradia" "2025-01-10" true ].

Definition sampleSummary : Summary.t :=
  {| Summary.income := 3000; Summary.variable_income := 450.5;
     Summary.fixed := 2300; Summary.variable := 125.4;
     Summary.invested := 0 |}.

End DoubleApp.

(** ** Totals used to state the properties *)

(** Sum of a list of numbers. *)
Definition total (xs : list Q) : Q := fold_right Qplus 0 xs.

(** The value the chart data lists under a label, if any. *)
Fixpoint entryValue {N : Type} (data : list (CategoryEntry.t N)) (c : string)
  : option (JsValue N) :=
  match data with
  | [] => None
  | e :: rest =>
      if String.eqb (CategoryEntry.name e) c then Some (CategoryEntry.value e)
      else entryValue rest c
  end.

(** The number a value is, 0 for a value that is not a number. *)
Definition numberOf (v : JsValue Q) : Q :=
  match v with
  | Num n => n
  | _ => 0
  end.

(** The number stored under an own label, 0 when there is none. *)
Definition storedNumber (acc : Obj Q) (c : string) : Q :=
  match ownProp acc c with
  | Some v => numberOf v
  | None => 0
  end.

(** 1 when the test holds, 0 otherwise. *)
Definition ind (b : bool) : Q := if b then 1 else 0.



(** ** Sample data *)

Definition mkTransaction (i : Z) (a : Q) (ty : TransactionType)
           (cat day : string) (rec : bool) : Transaction :=
  {| id := i; description := "sample"; amount := a; type := ty;
     category := cat; date := day; is_recurring := rec;
     installments := Some 1%Z; start_date := Some day |}.

Definition sampleSalary : Transaction :=
  mkTransaction 1 3000 income "Salario" "2025-01-05" true.
Definition sampleBonus : Transaction :=
  mkTransaction 2 450.5 variable_income "" "2025-03-20" false.
Definition sampleRent : Transaction :=
  mkTransaction 3 1200 fixed_expense "Moradia" "2025-01-10" true.
Definition sampleMarket : Transaction :=
  mkTransaction 4 85.4 variable_expense "" "2025-07-02" false.
Definition sampleOldRent : Transaction :=
  mkTransaction 5 1100 fixed_expense "Moradia" "2024-12-10" true.
Definition sampleCinema : Transaction :=
  mkTransaction 6 40 variable_expense "" "2025-11-30" false.

Definition sampleTransactions : list Transaction :=
  [sampleSalary; sampleBonus; sampleRent; sampleMarket; sampleOldRent;
   sampleCinema].

Definition sampleProtoExpense : Transaction :=
  mkTransaction 7 100 fixed_expense "__proto__" "2025-02-01" false.
Definition sampleConstructorExpense : Transaction :=
  mkTransaction 8 100 fixed_expense "constructor" "2025-02-01" false.
Definition sampleLazer : Transaction :=
  mkTransaction 9 5 variable_expense "Lazer" "2025-02-03" false.
Definition sampleYear2024 : Transaction :=
  mkTransaction 10 30 variable_expense "2024" "2025-02-04" false.

Definition sampleNewYear : Transaction :=
  mkTransaction 11 7 variable_expense "Lazer" "2026-01-01" false.

Definition sampleSummary : Summary.t :=
  {| Summary.income := 3000; Summary.variable_income := 450.5;
     Summary.fixed := 2300; Summary.variable := 125.4;
     Summary.invested := 0 |}.

Definition sampleToday : CalendarDate :=
  {| fullYear := 2025; month := Nov; dayOfMonth := 30 |}.

(** ** The tax tab *)

(** [summary.income + summary.variable_income] *)
Definition totalGrossIncome (summary : Summary.t) : Q :=
  Summary.income summary + Summary.variable_income summary.

(** [calculateTaxes(totalGrossIncome)] *)
Definition taxes (summary : Summary.t) : Taxes :=
  calculateTaxes (totalGrossIncome summary).

(** The card "Total Deduções": [taxes.inss + taxes.irpf]. *)
Definition totalDeducoes (summary : Summary.t) : Q :=
  inss (taxes summary) + irpf (taxes summary).

(** [Math.min((x / total) * 100 * 5, 100)], the width in percent of a
    deduction bar.  [None] stands for a result that is not a finite number:
    [NaN] for 0/0 and [-Infinity] for a negative [x] over 0; a positive [x]
    over 0 is [Infinity], which [Math.min] caps at 100. *)
Definition barWidth (x total : Q) : option Q :=
  if Qeq_bool total 0 then
    if Qlt_le_dec 0 x then Some 100 else None
  else Some (Qmin ((x / total) * 100 * 5) 100).

Definition inssBarWidth (summary : Summary.t) : option Q :=
  barWidth (inss (taxes summary)) (totalGrossIncome summary).

Definition irpfBarWidth (summary : Summary.t) : option Q :=
  barWidth (irpf (taxes summary)) (totalGrossIncome summary).

(** ** The column "Saldo" of a report row: [item.income - item.expenses] *)

Definition saldo (item : PeriodRow.t) : Q :=
  PeriodRow.income item - PeriodRow.expenses item.


(** Two report rows that agree: same label, same totals. *)
Definition sameRow (a b : PeriodRow.t) : Prop :=
  PeriodRow.label a = PeriodRow.label b
  /\ PeriodRow.income a == PeriodRow.income b
  /\ PeriodRow.expenses a == PeriodRow.expenses b.

(** Sums of consecutive triples and pairs of a list of numbers. *)
Fixpoint sumByThree (xs : list Q) : list Q :=
  match xs with
  | a :: b :: c :: rest => (a + b + c) :: sumByThree rest
  | _ => []
  end.

Fixpoint sumByTwo (xs : list Q) : list Q :=
  match xs with
  | a :: b :: rest => (a + b) :: sumByTwo rest
  | _ => []
  end.

(** * Properties *)

(** ** Tax estimator *)

Ltac qcase :=
  match goal with
  | |- context [Qle_bool ?a ?b] =>
      let H := fresh "Hle" in
      destruct (Qle_bool a b) eqn:H;
      [ apply Qle_bool_iff in H
      | apply not_true_iff_false in H; rewrite Qle_bool_iff in H;
        apply Qnot_le_lt in H ]
  end.

Ltac qcases := repeat qcase.

Lemma inssOf_nondecreasing_below_ceiling (g1 g2 : Q) :
  g1 <= g2 -> g2 <= 7786.02 -> inssOf g1 <= inssOf g2.
Proof.
  intros H12 Hc. unfold inssOf. qcases; lra.
Qed.

Lemma inssOf_upper_bound (g : Q) : inssOf g <= 908.8618.
Proof.
  unfold inssOf. qcases; lra.
Qed.

Lemma inssOf_above_ceiling (g : Q) : 7786.02 < g -> inssOf g == 908.85.
Proof.
  intros Hg. unfold inssOf. qcases; lra.
Qed.

Lemma inssOf_nonneg (g : Q) : 0 <= g -> 0 <= inssOf g.
Proof.
  intros Hg. unfold inssOf. qcases; lra.
Qed.

(** The incomes whose contribution is above the flat 908.85: the last
    0.0843 below the ceiling. *)
Lemma inssOf_exceeds_cap_iff (g : Q) :
  908.85 < inssOf g <-> 4000.03 + 530.0268 / 0.14 < g /\ g <= 7786.02.
Proof.
  assert (E : 530.0268 / 0.14 == 1325067 # 350) by (vm_compute; reflexivity).
  rewrite E. unfold inssOf. qcases; split; intros H; lra.
Qed.

(** Apart from the fall of 0.0118 at the ceiling the contribution does not
    decrease. *)
Lemma inssOf_near_monotone (g1 g2 : Q) :
  g1 <= g2 -> inssOf g1 - 0.0118 <= inssOf g2.
Proof.
  intros Hg. unfold inssOf. qcases; lra.
Qed.

(** C1, at the hand-over.  At the ceiling 7786.02 the marginal formula
    gives 908.8618, above the flat 908.85 that applies from there on: the
    contribution exceeds the cap and falls when the income rises by one
    cent. *)
Theorem calculateTaxes_inss_overshoots_cap :
  inss (calculateTaxes 7786.02) == 908.8618
  /\ 908.85 < inss (calculateTaxes 7786.02)
  /\ inss (calculateTaxes 7786.03) == 908.85
  /\ inss (calculateTaxes 7786.03) < inss (calculateTaxes 7786.02).
Proof.
  repeat split; vm_compute; reflexivity.
Qed.

(** The same evaluation with binary64 rounding. *)
Example Double_inss_overshoots_cap :
  (908.85 <? Double.inss (Double.calculateTaxes 7786.02))%float = true
  /\ (Double.inss (Double.calculateTaxes 7786.03)
      <? Double.inss (Double.calculateTaxes 7786.02))%float = true.
Proof.
  split; vm_compute; reflexivity.
Qed.

(** Income tax as a function of the taxable base. *)

Lemma irpfOf_nonneg (b : Q) : 0 <= irpfOf b.
Proof.
  unfold irpfOf. qcases; lra.
Qed.

Lemma irpfOf_near_monotone (b1 b2 : Q) :
  b1 <= b2 -> irpfOf b1 - 0.00125 <= irpfOf b2.
Proof.
  intros Hb. unfold irpfOf. qcases; lra.
Qed.

(** Size of the step at each boundary of the table: none at 2259.20,
    0.00125 down at 2826.65 and at 3751.05, 0.004 up at 4664.68. *)
Lemma irpfOf_steps (b : Q) :
  (2259.20 < b -> b <= 2826.65 ->
   irpfOf b == irpfOf 2259.20 + (b - 2259.20) * 0.075)
  /\ (2826.65 < b -> b <= 3751.05 ->
      irpfOf b == irpfOf 2826.65 - 0.00125 + (b - 2826.65) * 0.15)
  /\ (3751.05 < b -> b <= 4664.68 ->
      irpfOf b == irpfOf 3751.05 - 0.00125 + (b - 3751.05) * 0.225)
  /\ (4664.68 < b ->
      irpfOf b == irpfOf 4664.68 + 0.004 + (b - 4664.68) * 0.275).
Proof.
  repeat split; intros; unfold irpfOf at 1; qcases; try lra;
    match goal with
    | |- context [irpfOf ?c] =>
        let v := eval vm_compute in (Qred (irpfOf c)) in
        setoid_replace (irpfOf c) with v by (vm_compute; reflexivity)
    end; lra.
Qed.

Lemma baseCalculo_monotone (g1 g2 : Q) :
  g1 <= g2 -> g1 - inssOf g1 <= g2 - inssOf g2.
Proof.
  intros Hg. unfold inssOf. qcases; lra.
Qed.

(** C2, as the code has it.  The income tax is never negative, and a rise
    of the gross income lowers it by at most 0.00125, the step of the
    table at 2826.65 and at 3751.05. *)
Theorem calculateTaxes_irpf_nonneg_near_monotone (g1 g2 : Q) :
  0 <= g1 -> g1 <= g2 ->
  0 <= irpf (calculateTaxes g1)
  /\ irpf (calculateTaxes g1) - 0.00125 <= irpf (calculateTaxes g2).
Proof.
  intros _ Hg. cbn [calculateTaxes irpf]. split.
  - apply irpfOf_nonneg.
  - apply irpfOf_near_monotone, baseCalculo_monotone, Hg.
Qed.

Lemma calculateTaxes_irpf_nonneg_near_monotone_witness :
  0 <= irpf (calculateTaxes 3097.12)
  /\ irpf (calculateTaxes 3097.12) - 0.00125 <= irpf (calculateTaxes 3097.125).
Proof.
  apply (calculateTaxes_irpf_nonneg_near_monotone 3097.12 3097.125);
    vm_compute; discriminate.
Defined.

(** C2, as stated, fails: between the gross incomes 3097.12 and 3097.125
    the taxable base crosses 2826.65 and the income tax falls from
    42.55845 to 42.55756. *)
Lemma calculateTaxes_irpf_downward_jump :
  0 <= 3097.12 /\ 3097.12 < 3097.125
  /\ baseCalculoOf 3097.12 <= 2826.65 /\ 2826.65 < baseCalculoOf 3097.125
  /\ irpf (calculateTaxes 3097.12) == 42.55845
  /\ irpf (calculateTaxes 3097.125) == 42.55756
  /\ irpf (calculateTaxes 3097.125) < irpf (calculateTaxes 3097.12).
Proof.
  repeat split; vm_compute; solve [reflexivity | discriminate].
Qed.

Example Double_irpf_downward_jump :
  (Double.irpf (Double.calculateTaxes 3097.125)
   <? Double.irpf (Double.calculateTaxes 3097.12))%float = true.
Proof.
  vm_compute; reflexivity.
Qed.

(** C6, as the code has it.  A gross income [g <= 0] is not rejected: it
    falls in the first bracket of both tables, so the pension contribution
    is 7.5% of [g], the income tax is 0 and the net is 92.5% of [g]; the
    deductions are both zero exactly when [g] is 0. *)
Theorem calculateTaxes_nonpositive (g : Q) :
  g <= 0 ->
  inss (calculateTaxes g) == g * 0.075
  /\ irpf (calculateTaxes g) == 0
  /\ net (calculateTaxes g) == g * 0.925
  /\ (inss (calculateTaxes g) == 0 <-> g == 0).
Proof.
  intros Hg. cbn [calculateTaxes inss irpf net].
  assert (Hi : inssOf g == g * 0.075) by (unfold inssOf; qcases; lra).
  assert (Hr : irpfOf (g - inssOf g) == 0).
  { unfold irpfOf. qcases; try lra; exfalso; lra. }
  repeat split; try lra.
Qed.

Lemma calculateTaxes_nonpositive_witness :
  inss (calculateTaxes (-100)) == -100 * 0.075
  /\ irpf (calculateTaxes (-100)) == 0
  /\ net (calculateTaxes (-100)) == -100 * 0.925
  /\ (inss (calculateTaxes (-100)) == 0 <-> -100 == 0).
Proof.
  apply (calculateTaxes_nonpositive (-100)). vm_compute; discriminate.
Defined.

(** C6, as stated, fails at [g = -100]: the pension contribution is -7.5,
    not 0, and the net is -92.5, not -100. *)
Lemma calculateTaxes_negative_income_deducts :
  -100 <= 0
  /\ inss (calculateTaxes (-100)) == -7.5
  /\ ~ inss (calculateTaxes (-100)) == 0
  /\ net (calculateTaxes (-100)) == -92.5
  /\ ~ net (calculateTaxes (-100)) == -100.
Proof.
  repeat split; vm_compute; solve [reflexivity | discriminate].
Qed.

Example Double_negative_income_deducts :
  (Double.inss (Double.calculateTaxes (-100)) =? -7.5)%float = true
  /\ (Double.net (Double.calculateTaxes (-100)) =? -92.5)%float = true.
Proof.
  split; vm_compute; reflexivity.
Qed.

(** ** Sums of amounts *)

Lemma fold_amounts_shift (xs : list Transaction) (a : Q) :
  fold_left (fun s t => s + amount t) xs a
  == a + fold_left (fun s t => s + amount t) xs 0.
Proof.
  revert a. induction xs as [|t xs IH]; intros a; cbn [fold_left].
  - lra.
  - rewrite (IH (a + amount t)), (IH (0 + amount t)). lra.
Qed.

Lemma sumAmounts_nil : sumAmounts [] == 0.
Proof. reflexivity. Qed.

Lemma sumAmounts_cons (t : Transaction) (xs : list Transaction) :
  sumAmounts (t :: xs) == amount t + sumAmounts xs.
Proof.
  unfold sumAmounts. cbn [fold_left]. rewrite fold_amounts_shift. lra.
Qed.

Lemma sumAmounts_filter_cons (f : Transaction -> bool) (t : Transaction)
      (xs : list Transaction) :
  sumAmounts (filter f (t :: xs))
  == (if f t then amount t else 0) + sumAmounts (filter f xs).
Proof.
  cbn [filter]. destruct (f t).
  - apply sumAmounts_cons.
  - lra.
Qed.

(** ** Projection *)

Lemma recurring_sums (transactions : list Transaction) :
  recurringIncome transactions
  = sumAmounts (filter (fun t => is_recurring t && isIncome t) transactions)
  /\ recurringExpenses transactions
     = sumAmounts (filter (fun t => is_recurring t && isExpense t)
                          transactions).
Proof.
  unfold recurringIncome, recurringExpenses.
  split; f_equal; apply filter_ext; intros t;
    unfold isIncome, isExpense; now destruct (type t).
Qed.

Section Projection.

Variable today : CalendarDate.
Variable transactions : list Transaction.
Variable summary : Summary.t.

(** The current net balance, through the four fields of the summary. *)
Let net : Q :=
  Summary.income summary + Summary.variable_income summary
  - Summary.fixed summary - Summary.variable summary.

(** The recurring difference, through the transactions. *)
Let diff : Q :=
  sumAmounts (filter (fun t => is_recurring t && isIncome t) transactions)
  - sumAmounts (filter (fun t => is_recurring t && isExpense t) transactions).

Let balanceAt (i : Z) : Q :=
  ProjectionPoint.balance (projectionPoint today transactions summary i).

Lemma balanceAt_closed_form (i : Z) :
  balanceAt i == net + diff * inject_Z (i + 1).
Proof.
  unfold balanceAt, projectionPoint, net, diff, currentNetBalance.
  cbn [ProjectionPoint.balance].
  destruct (recurring_sums transactions) as [-> ->]. lra.
Qed.

(** C3, in exact arithmetic.  The six projected balances are the first
    six terms of an arithmetic progression: the term of index 0 is the
    current net balance (income plus variable income minus fixed and
    variable expenses of the summary) plus the recurring difference, and
    each next term adds that difference, the sum of the amounts of the
    recurring income-type transactions minus that of the recurring
    expense-type ones. *)
Theorem projectionData_arithmetic_progression :
  Forall2 Qeq
    (map ProjectionPoint.balance (projectionData today transactions summary))
    [ net + diff;
      net + diff + diff;
      net + diff + diff + diff;
      net + diff + diff + diff + diff;
      net + diff + diff + diff + diff + diff;
      net + diff + diff + diff + diff + diff + diff ]
  /\ forall i : Z, balanceAt (i + 1) == balanceAt i + diff.
Proof.
  split.
  - unfold projectionData. cbn [map]. fold (balanceAt 0) (balanceAt 1)
      (balanceAt 2) (balanceAt 3) (balanceAt 4) (balanceAt 5).
    repeat constructor; rewrite balanceAt_closed_form;
      match goal with
      | |- context [inject_Z ?z] =>
          let v := eval vm_compute in (inject_Z z) in
          change (inject_Z z) with v
      end; lra.
  - intros i. rewrite !balanceAt_closed_form.
    rewrite !inject_Z_plus. change (inject_Z 1) with 1.
    generalize (inject_Z i). intros q. lra.
Qed.


End Projection.

(** C3, as stated, fails on binary64 numbers.  With a recurring income of
    2500.10, a recurring expense of 1200.40 and the summary 3000, 450.5,
    2300, 125.4 the difference is 1299.6999999999998 and the balance of
    index 3, 6223.8999999999996, is not the balance of index 2 plus the
    difference, 6223.8999999999987. *)
Lemma projectionBalance_not_arithmetic_in_binary64 :
  let balance :=
    DoubleApp.projectionBalance DoubleApp.sampleRecurring
                                DoubleApp.sampleSummary in
  let diff :=
    (DoubleApp.recurringIncome DoubleApp.sampleRecurring
     - DoubleApp.recurringExpenses DoubleApp.sampleRecurring)%float in
  diff = 1299.6999999999998%float
  /\ balance 2%Z = 4924.1999999999989%float
  /\ balance 3%Z = 6223.8999999999996%float
  /\ (balance 2%Z + diff)%float = 6223.8999999999987%float
  /\ (balance 3%Z =? balance 2%Z + diff)%float = false.
Proof.
  repeat split; vm_compute; reflexivity.
Qed.

(** Doubling is exact on binary64 numbers: on the amounts above the
    one-year figure is still twice the net balance plus twelve times the
    difference. *)
Example estimate_twice_sixth_month_in_binary64 :
  let balance :=
    DoubleApp.projectionBalance DoubleApp.sampleRecurring
                                DoubleApp.sampleSummary in
  let diff :=
    (DoubleApp.recurringIncome DoubleApp.sampleRecurring
     - DoubleApp.recurringExpenses DoubleApp.sampleRecurring)%float in
  let net := (3000 + 450.5 - 2300 - 125.4)%float in
  (balance 5%Z * 2 =? 2 * net + 12 * diff)%float = true
  /\ (balance 5%Z * 2 =? balance 11%Z)%float = false.
Proof. split; vm_compute; reflexivity. Qed.

Example projectionData_sample :
  let points := projectionData sampleToday sampleTransactions sampleSummary in
  map ProjectionPoint.month points
  = ["nov"; "dez"; "jan"; "fev"; "mar"; "abr"]%string
  /\ map Qred (map ProjectionPoint.balance points)
     = map Qred [1725.1; 2425.1; 3125.1; 3825.1; 4525.1; 5225.1]
  /\ option_map Qred
       (estimativaEm1Ano sampleToday sampleTransactions sampleSummary)
     = Some (Qred 10450.2).
Proof. repeat split; vm_compute; reflexivity. Qed.

(** ** Category totals *)

Lemma sumAmounts_filter_Permutation (f : Transaction -> bool)
      (xs ys : list Transaction) :
  Permutation xs ys -> sumAmounts (filter f xs) == sumAmounts (filter f ys).
Proof.
  induction 1 as [|t xs ys _ IH|a b xs|xs ys zs _ IH1 _ IH2].
  - reflexivity.
  - rewrite !sumAmounts_filter_cons, IH. reflexivity.
  - rewrite !sumAmounts_filter_cons. lra.
  - now rewrite IH1.
Qed.

Lemma total_Permutation (xs ys : list Q) :
  Permutation xs ys -> total xs == total ys.
Proof.
  induction 1 as [|x xs ys _ IH|a b xs|xs ys zs _ IH1 _ IH2];
    cbn [total fold_right] in *.
  - reflexivity.
  - now rewrite IH.
  - lra.
  - now rewrite IH1.
Qed.

(** *** Own properties *)

Section OwnProperties.

Context {N : Type}.
Implicit Types (acc : Obj N) (k c : string) (v : JsValue N).

Lemma ownProp_ownSet_same acc k v : ownProp (ownSet acc k v) k = Some v.
Proof.
  induction acc as [|[k' v'] acc IH]; cbn [ownSet ownProp].
  - now rewrite String.eqb_refl.
  - destruct (String.eqb k' k) eqn:E; cbn [ownProp]; now rewrite E.
Qed.

Lemma ownProp_ownSet_other acc k c v :
  k <> c -> ownProp (ownSet acc k v) c = ownProp acc c.
Proof.
  intros Hne. induction acc as [|[k0 v0] acc IH]; cbn [ownSet ownProp].
  - destruct (String.eqb k c) eqn:E; [|reflexivity].
    apply String.eqb_eq in E. contradiction.
  - destruct (String.eqb k0 k) eqn:E; cbn [ownProp].
    + apply String.eqb_eq in E. subst k0.
      destruct (String.eqb k c) eqn:E'; [|reflexivity].
      apply String.eqb_eq in E'. contradiction.
    + now rewrite IH.
Qed.

Lemma keys_ownSet acc k v :
  map fst (ownSet acc k v)
  = if existsb (String.eqb k) (map fst acc) then map fst acc
    else (map fst acc ++ [k])%list.
Proof.
  induction acc as [|[k' v'] acc IH]; cbn [ownSet map fst existsb app].
  - reflexivity.
  - rewrite (String.eqb_sym k k').
    destruct (String.eqb k' k) eqn:E; cbn [map fst orb].
    + reflexivity.
    + rewrite IH. now destruct (existsb (String.eqb k) (map fst acc)).
Qed.

Lemma In_keys_ownSet acc k c v :
  In c (map fst (ownSet acc k v)) <-> In c (map fst acc) \/ c = k.
Proof.
  rewrite keys_ownSet.
  destruct (existsb (String.eqb k) (map fst acc)) eqn:E.
  - split; [now left|]. intros [H| ->]; [assumption|].
    apply existsb_exists in E. destruct E as [k' [Hin Hk]].
    apply String.eqb_eq in Hk. now subst k'.
  - rewrite in_app_iff. cbn [In]. intuition congruence.
Qed.

Lemma NoDup_keys_ownSet acc k v :
  NoDup (map fst acc) -> NoDup (map fst (ownSet acc k v)).
Proof.
  intros Hnd. rewrite keys_ownSet.
  destruct (existsb (String.eqb k) (map fst acc)) eqn:E; [assumption|].
  apply NoDup_app; [assumption | repeat constructor; intros [] | ].
  intros x Hin [Hx|[]]. subst x.
  assert (existsb (String.eqb k) (map fst acc) = true); [|congruence].
  apply existsb_exists. exists k. split; [assumption | apply String.eqb_refl].
Qed.

Lemma ownProp_None acc c : ownProp acc c = None <-> ~ In c (map fst acc).
Proof.
  induction acc as [|[k v] acc IH]; cbn [ownProp map fst In].
  - tauto.
  - destruct (String.eqb k c) eqn:E.
    + apply String.eqb_eq in E. split; [discriminate|]. intros H. tauto.
    + apply String.eqb_neq in E. rewrite IH. tauto.
Qed.

Lemma ownProp_Some acc c v :
  NoDup (map fst acc) -> (ownProp acc c = Some v <-> In (c, v) acc).
Proof.
  induction acc as [|[k w] acc IH]; cbn [ownProp map fst In]; intros Hnd.
  - split; [discriminate|tauto].
  - inversion Hnd as [|? ? Hk Hnd']; subst.
    destruct (String.eqb k c) eqn:E.
    + apply String.eqb_eq in E. subst k. split.
      * intros [= ->]. now left.
      * intros [[= ->]|Hin]; [reflexivity|].
        exfalso. apply Hk. now apply (in_map fst) in Hin.
    + apply String.eqb_neq in E. rewrite (IH Hnd'). split; [tauto|].
      intros [[= -> _]|Hin]; [contradiction|assumption].
Qed.

Lemma ownProp_Permutation acc acc' c :
  NoDup (map fst acc) -> Permutation acc acc' ->
  ownProp acc c = ownProp acc' c.
Proof.
  intros Hnd Hperm.
  assert (Hnd' : NoDup (map fst acc')).
  { eapply Permutation_NoDup; [|exact Hnd]. now apply Permutation_map. }
  destruct (ownProp acc c) as [v|] eqn:E.
  - symmetry. apply (ownProp_Some _ _ _ Hnd').
    apply (Permutation_in _ Hperm). now apply (ownProp_Some _ _ _ Hnd).
  - symmetry. apply ownProp_None. intros Hin. apply ownProp_None in E.
    apply E. eapply Permutation_in; [|exact Hin].
    apply Permutation_map, Permutation_sym, Hperm.
Qed.

Lemma insertByIndex_Permutation {A : Type} (i : Z) (x : A)
      (sorted : list (Z * A)) :
  Permutation (map snd (insertByIndex i x sorted)) (x :: map snd sorted).
Proof.
  induction sorted as [|[j y] sorted IH]; cbn [insertByIndex map snd].
  - reflexivity.
  - destruct (i <=? j)%Z; cbn [map snd]; [reflexivity|].
    rewrite IH. apply perm_swap.
Qed.

Lemma objectEntries_Permutation acc : Permutation (objectEntries acc) acc.
Proof.
  unfold objectEntries. induction acc as [|kv acc IH]; [reflexivity|].
  cbn [fold_right filter]. destruct (arrayIndex (fst kv)) as [i|].
  - rewrite insertByIndex_Permutation. cbn [app]. now constructor.
  - rewrite <- Permutation_middle. now constructor.
Qed.

End OwnProperties.

Lemma entryValue_entries {N : Type} (entries : list (string * JsValue N))
      (c : string) :
  entryValue
    (map (fun '(name, value) =>
            {| CategoryEntry.name := name; CategoryEntry.value := value |})
         entries) c
  = ownProp entries c.
Proof.
  induction entries as [|[k v] entries IH]; [reflexivity|].
  cbn [map entryValue ownProp CategoryEntry.name CategoryEntry.value].
  now rewrite IH.
Qed.

(** *** The fold of [categoryData] *)

Lemma not_on_prototype_not_proto (k : string) :
  onObjectPrototype k = false -> String.eqb k "__proto__" = false.
Proof.
  intros H. destruct (String.eqb k "__proto__") eqn:E; [|reflexivity].
  apply String.eqb_eq in E. subst k. discriminate H.
Qed.

Lemma categoryStep_expense (acc : Obj Q) (t : Transaction) :
  categoryStep acc t
  = if isExpense t
    then setProp acc (category t)
           (orZeroPlus (fun n => Qeq_bool n 0) 0 Qplus
                       (getProp acc (category t)) (amount t))
    else acc.
Proof.
  unfold categoryStep, isExpense. now destruct (type t).
Qed.

Lemma isExpense_not_isIncome (t : Transaction) :
  isExpense t = negb (isIncome t).
Proof.
  unfold isExpense, isIncome. now destruct (type t).
Qed.

Lemma category_fold_drops_income (xs : list Transaction) (acc : Obj Q) :
  fold_left categoryStep xs acc
  = fold_left categoryStep (filter isExpense xs) acc.
Proof.
  revert acc. induction xs as [|t xs IH]; intros acc; [reflexivity|].
  cbn [fold_left filter]. rewrite categoryStep_expense.
  destruct (isExpense t) eqn:E; cbn [fold_left].
  - rewrite categoryStep_expense, E. apply IH.
  - apply IH.
Qed.

Lemma NoDup_keys_setProp (acc : Obj Q) (k : string) (v : JsValue Q) :
  NoDup (map fst acc) -> NoDup (map fst (setProp acc k v)).
Proof.
  unfold setProp. destruct (String.eqb k "__proto__"); [tauto|].
  apply NoDup_keys_ownSet.
Qed.

Lemma category_fold_NoDup (xs : list Transaction) (acc : Obj Q) :
  NoDup (map fst acc) -> NoDup (map fst (fold_left categoryStep xs acc)).
Proof.
  revert acc. induction xs as [|t xs IH]; intros acc Hnd; [assumption|].
  cbn [fold_left]. apply IH. rewrite categoryStep_expense.
  destruct (isExpense t); [apply NoDup_keys_setProp|]; assumption.
Qed.

Lemma In_keys_setProp (acc : Obj Q) (k c : string) (v : JsValue Q) :
  In c (map fst (setProp acc k v))
  <-> In c (map fst acc) \/ (c = k /\ c <> "__proto__"%string).
Proof.
  unfold setProp. destruct (String.eqb k "__proto__") eqn:E.
  - apply String.eqb_eq in E. subst k. tauto.
  - apply String.eqb_neq in E. rewrite In_keys_ownSet.
    split; intros [H|H]; auto.
    + right. split; [assumption|]. congruence.
    + right. tauto.
Qed.

Lemma category_fold_keys (xs : list Transaction) (acc : Obj Q) (c : string) :
  In c (map fst (fold_left categoryStep xs acc))
  <-> In c (map fst acc)
      \/ (c <> "__proto__"%string
          /\ exists t, In t xs /\ isExpense t = true /\ category t = c).
Proof.
  revert acc. induction xs as [|t xs IH]; intros acc; cbn [fold_left].
  - split; [now left|]. intros [H|[_ [t [[] _]]]]. assumption.
  - rewrite IH, categoryStep_expense. destruct (isExpense t) eqn:E.
    + rewrite In_keys_setProp. split.
      * intros [[H|[-> Hp]]|[Hp [u [Hin H]]]]; [now left| |].
        -- right. split; [assumption|]. exists t. cbn [In]. auto.
        -- right. split; [assumption|]. exists u. cbn [In]. tauto.
      * intros [H|[Hp [u [[->|Hin] [He Hc]]]]]; [now left; left| |].
        -- left. right. split; [now symmetry|assumption].
        -- right. split; [assumption|]. now exists u.
    + split.
      * intros [H|[Hp [u [Hin H]]]]; [now left|].
        right. split; [assumption|]. exists u. cbn [In]. tauto.
      * intros [H|[Hp [u [[->|Hin] [He Hc]]]]]; [now left|congruence|].
        right. split; [assumption|]. now exists u.
Qed.

Lemma label_step (c : string) (acc : Obj Q) (t : Transaction) :
  onObjectPrototype c = false ->
  (forall v, ownProp acc c = Some v -> exists n, v = Num n) ->
  (forall v, ownProp (categoryStep acc t) c = Some v -> exists n, v = Num n)
  /\ storedNumber (categoryStep acc t) c
     == storedNumber acc c
        + (if isExpense t && String.eqb (category t) c then amount t else 0).
Proof.
  intros Hc Hnum. rewrite categoryStep_expense. unfold storedNumber.
  destruct (isExpense t); cbn [andb]; [|split; [assumption|lra]].
  destruct (String.eqb (category t) c) eqn:E.
  - apply String.eqb_eq in E. rewrite E. unfold setProp.
    rewrite (not_on_prototype_not_proto c Hc), ownProp_ownSet_same.
    unfold getProp. destruct (ownProp acc c) as [v|] eqn:Hv.
    + destruct (Hnum v eq_refl) as [n ->]. cbn [orZeroPlus numberOf]. split.
      * intros w [= <-]. eauto.
      * destruct (Qeq_bool n 0) eqn:Hz; [|lra].
        apply Qeq_bool_iff in Hz. lra.
    + rewrite Hc. cbn [orZeroPlus numberOf]. split.
      * intros w [= <-]. eauto.
      * lra.
  - apply String.eqb_neq in E. unfold setProp.
    destruct (String.eqb (category t) "__proto__");
      rewrite ?ownProp_ownSet_other by assumption; split; (assumption || lra).
Qed.

Lemma category_fold_label (c : string) (xs : list Transaction) (acc : Obj Q) :
  onObjectPrototype c = false ->
  (forall v, ownProp acc c = Some v -> exists n, v = Num n) ->
  (forall v, ownProp (fold_left categoryStep xs acc) c = Some v ->
             exists n, v = Num n)
  /\ storedNumber (fold_left categoryStep xs acc) c
     == storedNumber acc c
        + sumAmounts
            (filter (fun t => isExpense t && String.eqb (category t) c) xs).
Proof.
  intros Hc. revert acc. induction xs as [|t xs IH]; intros acc Hnum.
  - cbn [fold_left filter]. rewrite sumAmounts_nil. split; [assumption|lra].
  - cbn [fold_left]. destruct (label_step c acc t Hc Hnum) as [Hn Hs].
    destruct (IH _ Hn) as [Hn' Hs']. split; [assumption|].
    rewrite Hs', Hs, sumAmounts_filter_cons. lra.
Qed.

Lemma numbersOnly_ownProp (acc : Obj Q) (k : string) (v : JsValue Q) :
  Forall (fun kv => exists n, snd kv = Num n) acc ->
  ownProp acc k = Some v -> exists n, v = Num n.
Proof.
  induction 1 as [|[k' w] acc Hw _ IH]; cbn [ownProp]; [discriminate|].
  destruct (String.eqb k' k); [|assumption]. now intros [= <-].
Qed.

Lemma numbersOnly_ownSet (acc : Obj Q) (k : string) (n : Q) :
  Forall (fun kv => exists m, snd kv = Num m) acc ->
  Forall (fun kv => exists m, snd kv = Num m) (ownSet acc k (Num n)).
Proof.
  induction 1 as [|[k' w] acc Hw Hacc IH]; cbn [ownSet].
  - repeat constructor. cbn. eauto.
  - destruct (String.eqb k' k); constructor; try assumption. cbn. eauto.
Qed.

Lemma total_ownSet (acc : Obj Q) (k : string) (v : JsValue Q) :
  total (map (fun kv => numberOf (snd kv)) (ownSet acc k v))
  == total (map (fun kv => numberOf (snd kv)) acc)
     - storedNumber acc k + numberOf v.
Proof.
  unfold storedNumber.
  induction acc as [|[k' v'] acc IH];
    cbn [ownSet ownProp map snd total fold_right].
  - lra.
  - destruct (String.eqb k' k) eqn:E; cbn [map snd fold_right].
    + lra.
    + fold (total (map (fun kv => numberOf (snd kv)) (ownSet acc k v))).
      fold (total (map (fun kv => numberOf (snd kv)) acc)).
      rewrite IH. lra.
Qed.

Lemma total_step (acc : Obj Q) (t : Transaction) :
  (isExpense t = true -> onObjectPrototype (category t) = false) ->
  Forall (fun kv => exists n, snd kv = Num n) acc ->
  Forall (fun kv => exists n, snd kv = Num n) (categoryStep acc t)
  /\ total (map (fun kv => numberOf (snd kv)) (categoryStep acc t))
     == total (map (fun kv => numberOf (snd kv)) acc)
        + (if isExpense t then amount t else 0).
Proof.
  intros Hsafe Hnum. rewrite categoryStep_expense.
  destruct (isExpense t); [|split; [assumption|lra]].
  specialize (Hsafe eq_refl). unfold setProp.
  rewrite (not_on_prototype_not_proto _ Hsafe).
  assert (Hv : exists n,
             orZeroPlus (fun n => Qeq_bool n 0) 0 Qplus
                        (getProp acc (category t)) (amount t) = Num n
             /\ n == storedNumber acc (category t) + amount t).
  { unfold getProp, storedNumber.
    destruct (ownProp acc (category t)) as [v|] eqn:E.
    - destruct (numbersOnly_ownProp _ _ _ Hnum E) as [n ->].
      cbn [orZeroPlus numberOf]. eexists. split; [reflexivity|].
      destruct (Qeq_bool n 0) eqn:Hz; [|lra]. apply Qeq_bool_iff in Hz. lra.
    - rewrite Hsafe. cbn [orZeroPlus]. eexists. split; [reflexivity|]. lra. }
  destruct Hv as [n [-> Hn]]. split.
  - now apply numbersOnly_ownSet.
  - rewrite total_ownSet. cbn [numberOf]. lra.
Qed.

Lemma category_fold_total (xs : list Transaction) (acc : Obj Q) :
  (forall t, In t xs -> isExpense t = true ->
             onObjectPrototype (category t) = false) ->
  Forall (fun kv => exists n, snd kv = Num n) acc ->
  Forall (fun kv => exists n, snd kv = Num n) (fold_left categoryStep xs acc)
  /\ total (map (fun kv => numberOf (snd kv)) (fold_left categoryStep xs acc))
     == total (map (fun kv => numberOf (snd kv)) acc)
        + sumAmounts (filter isExpense xs).
Proof.
  revert acc. induction xs as [|t xs IH]; intros acc Hsafe Hnum.
  - cbn [fold_left filter]. rewrite sumAmounts_nil. split; [assumption|lra].
  - cbn [fold_left].
    destruct (total_step acc t (Hsafe t (or_introl eq_refl)) Hnum) as [Hn Hs].
    destruct (IH (categoryStep acc t)) as [Hn' Hs']; [|assumption|].
    { intros u Hu. apply Hsafe. now right. }
    split; [assumption|]. rewrite Hs', Hs, sumAmounts_filter_cons. lra.
Qed.

(** *** The chart data *)

Lemma categoryTotals_NoDup (transactions : list Transaction) :
  NoDup (map fst (categoryTotals transactions)).
Proof. apply category_fold_NoDup. constructor. Qed.

Lemma categoryData_names (transactions : list Transaction) :
  map CategoryEntry.name (categoryData transactions)
  = map fst (objectEntries (categoryTotals transactions)).
Proof.
  unfold categoryData. rewrite map_map. apply map_ext. now intros [k v].
Qed.

Lemma categoryData_values (transactions : list Transaction) :
  map CategoryEntry.value (categoryData transactions)
  = map snd (objectEntries (categoryTotals transactions)).
Proof.
  unfold categoryData. rewrite map_map. apply map_ext. now intros [k v].
Qed.

Lemma categoryData_entryValue (transactions : list Transaction) (c : string) :
  entryValue (categoryData transactions) c
  = ownProp (categoryTotals transactions) c.
Proof.
  unfold categoryData. rewrite entryValue_entries. symmetry.
  apply ownProp_Permutation; [apply categoryTotals_NoDup|].
  apply Permutation_sym, objectEntries_Permutation.
Qed.

Lemma categoryData_In_name (transactions : list Transaction) (c : string) :
  In c (map CategoryEntry.name (categoryData transactions))
  <-> c <> "__proto__"%string
      /\ exists t, In t transactions /\ isExpense t = true /\ category t = c.
Proof.
  rewrite categoryData_names.
  assert (Hp : Permutation
                 (map fst (objectEntries (categoryTotals transactions)))
                 (map fst (categoryTotals transactions))).
  { apply Permutation_map, objectEntries_Permutation. }
  split.
  - intros Hin. apply (Permutation_in _ Hp) in Hin.
    unfold categoryTotals in Hin. apply category_fold_keys in Hin.
    destruct Hin as [[]|H]. exact H.
  - intros H. apply (Permutation_in _ (Permutation_sym Hp)).
    unfold categoryTotals. apply category_fold_keys. now right.
Qed.

(** ** Period reports *)

Lemma filter_filter_and {A : Type} (f g : A -> bool) (xs : list A) :
  filter f (filter g xs) = filter (fun x => g x && f x) xs.
Proof.
  induction xs as [|x xs IH]; [reflexivity|]. cbn [filter].
  destruct (g x); cbn [filter andb]; now rewrite IH.
Qed.

Lemma bucket_sum_cons (f P : Transaction -> bool) (t : Transaction)
      (xs : list Transaction) :
  sumAmounts (filter f (filter P (t :: xs)))
  == (if f t then amount t else 0) * ind (P t)
     + sumAmounts (filter f (filter P xs)).
Proof.
  rewrite !filter_filter_and, sumAmounts_filter_cons. unfold ind.
  destruct (P t), (f t); cbn [andb]; lra.
Qed.

Lemma buckets_cons (f : Transaction -> bool)
      (Ps : list (Transaction -> bool)) (t : Transaction)
      (xs : list Transaction) :
  total (map (fun P => sumAmounts (filter f (filter P (t :: xs)))) Ps)
  == (if f t then amount t else 0) * total (map (fun P => ind (P t)) Ps)
     + total (map (fun P => sumAmounts (filter f (filter P xs))) Ps).
Proof.
  induction Ps as [|P Ps IH]; cbn [map total fold_right].
  - lra.
  - fold (total (map (fun P => sumAmounts (filter f (filter P (t :: xs)))) Ps)).
    fold (total (map (fun P => ind (P t)) Ps)).
    fold (total (map (fun P => sumAmounts (filter f (filter P xs))) Ps)).
    rewrite IH, bucket_sum_cons. lra.
Qed.

(** Buckets that split a selection: when every transaction selected by [P]
    lies in exactly one of the buckets [Ps] and no other transaction lies
    in any, the bucket sums add up to the sum over the selection. *)
Lemma buckets_partition (f : Transaction -> bool)
      (Ps : list (Transaction -> bool)) (P : Transaction -> bool)
      (xs : list Transaction) :
  (forall t, total (map (fun Pi => ind (Pi t)) Ps) == ind (P t)) ->
  total (map (fun Pi => sumAmounts (filter f (filter Pi xs))) Ps)
  == sumAmounts (filter f (filter P xs)).
Proof.
  intros Hpart. induction xs as [|t xs IH].
  - clear Hpart. cbn [filter]. rewrite sumAmounts_nil.
    induction Ps as [|Pi Ps IHP]; cbn [map total fold_right]; [reflexivity|].
    unfold total in IHP. rewrite IHP, sumAmounts_nil. lra.
  - rewrite buckets_cons, bucket_sum_cons, IH, Hpart. lra.
Qed.

Lemma filter_without {A : Type} (P : A -> bool) (before after : list A)
      (x : A) :
  P x = false -> filter P (before ++ x :: after) = filter P (before ++ after).
Proof.
  intros Hx. rewrite !filter_app. cbn [filter]. now rewrite Hx.
Qed.

Section Reports.

Variable newDate : string -> JsDate.
Variable currentYear : Z.

(** The tests that select the transactions of each bucket. *)
Let inYear (t : Transaction) : bool :=
  strictEq (getYear (newDate (date t))) currentYear.
Let inMonth (i : Z) (t : Transaction) : bool :=
  let d := newDate (date t) in
  strictEq (getMonth d) i && strictEq (getYear d) currentYear.
Let inQuarter (i : Z) (t : Transaction) : bool :=
  let d := newDate (date t) in
  strictEq (getQuarter d) i && strictEq (getYear d) currentYear.
Let inSemester (i : Z) (t : Transaction) : bool :=
  let d := newDate (date t) in
  let month_ := getMonth d in
  (if (i =? 1)%Z then ltNum month_ 6 else geNum month_ 6)
  && strictEq (getYear d) currentYear.

(** The buckets of each granularity, in the order of the rows. *)
Let buckets (p : Period) : list (Transaction -> bool) :=
  match p with
  | monthly => map inMonth [0; 1; 2; 3; 4; 5; 6; 7; 8; 9; 10; 11]%Z
  | quarterly => map inQuarter [1; 2; 3; 4]%Z
  | semi_annual => map inSemester [1; 2]%Z
  | annual => [inYear]
  end.

Lemma getPeriodData_income (transactions : list Transaction) (p : Period) :
  map PeriodRow.income (getPeriodData newDate transactions p currentYear)
  = map (fun P => sumAmounts (filter isIncome (filter P transactions)))
        (buckets p).
Proof. destruct p; reflexivity. Qed.

Lemma getPeriodData_expenses (transactions : list Transaction) (p : Period) :
  map PeriodRow.expenses (getPeriodData newDate transactions p currentYear)
  = map (fun P => sumAmounts (filter isExpense (filter P transactions)))
        (buckets p).
Proof. destruct p; reflexivity. Qed.

(** Every transaction of the year lies in exactly one bucket, whatever
    the granularity, and a transaction of another year (or with an
    unreadable date) in none. *)
Lemma buckets_split_year (p : Period) (t : Transaction) :
  total (map (fun P => ind (P t)) (buckets p)) == ind (inYear t).
Proof.
  unfold buckets, inYear, inMonth, inQuarter, inSemester, getQuarter.
  destruct p; cbn [map total fold_right];
    (destruct (newDate (date t)) as [|[y m dd]];
     cbn [getMonth getYear strictEq month fullYear];
     [|destruct (y =? currentYear)%Z; destruct m]);
    vm_compute; reflexivity.
Qed.

(** C4, in exact arithmetic.  The annual report has one row; the incomes
    of the twelve monthly rows add up to its income, and so do those of the
    rows of every other granularity; likewise for the expenses. *)
Theorem getPeriodData_sums_to_annual (transactions : list Transaction) :
  exists row : PeriodRow.t,
    getPeriodData newDate transactions annual currentYear = [row]
    /\ List.length (getPeriodData newDate transactions monthly currentYear)
       = 12%nat
    /\ total (map PeriodRow.income
                  (getPeriodData newDate transactions monthly currentYear))
       == PeriodRow.income row
    /\ forall p : Period,
         total (map PeriodRow.income
                    (getPeriodData newDate transactions p currentYear))
         == PeriodRow.income row
         /\ total (map PeriodRow.expenses
                       (getPeriodData newDate transactions p currentYear))
            == PeriodRow.expenses row.
Proof.
  eexists. split; [reflexivity|]. split; [reflexivity|].
  cbn [PeriodRow.income PeriodRow.expenses periodRow].
  assert (H : forall p : Period,
    total (map PeriodRow.income
               (getPeriodData newDate transactions p currentYear))
    == sumAmounts (filter isIncome (filter inYear transactions))
    /\ total (map PeriodRow.expenses
                  (getPeriodData newDate transactions p currentYear))
       == sumAmounts (filter isExpense (filter inYear transactions))).
  { intros p. rewrite getPeriodData_income, getPeriodData_expenses.
    split; apply buckets_partition; intros t; apply buckets_split_year. }
  split; [apply (H monthly) | exact H].
Qed.

(** What the year test decides: a transaction whose date the host does
    not read as a day of the requested year changes no row of the report,
    whatever the granularity. *)
Theorem getPeriodData_ignores_other_years
        (before after : list Transaction) (t : Transaction) (p : Period) :
  getYear (newDate (date t)) <> Some currentYear ->
  getPeriodData newDate (before ++ t :: after) p currentYear
  = getPeriodData newDate (before ++ after) p currentYear.
Proof.
  intros Hyear.
  assert (Hout : strictEq (getYear (newDate (date t))) currentYear = false).
  { destruct (getYear (newDate (date t))) as [y|]; [|reflexivity].
    cbn [strictEq]. apply Z.eqb_neq. congruence. }
  destruct p; cbn [getPeriodData];
    [ apply map_ext; intros i; apply (f_equal (periodRow _)) ..
    | apply (f_equal (fun bucket => [periodRow _ bucket])) ];
    apply filter_without; cbn beta zeta;
    rewrite Hout; auto using andb_false_r.
Qed.

End Reports.

Lemma getPeriodData_ignores_other_years_witness :
  getPeriodData (isoDate false)
    ([sampleSalary; sampleBonus] ++ sampleOldRent :: [sampleRent]) monthly 2025
  = getPeriodData (isoDate false)
      ([sampleSalary; sampleBonus] ++ [sampleRent]) monthly 2025.
Proof.
  apply (getPeriodData_ignores_other_years (isoDate false) 2025).
  vm_compute. discriminate.
Defined.

(** C4, as stated, fails on binary64 numbers.  With the incomes 0.1 in
    January and 0.2, 0.3 in February the monthly rows hold 0.1 and 0.5,
    which add up to 0.59999999999999998, while the annual row holds
    0.60000000000000009. *)
Lemma monthly_incomes_differ_from_annual_in_binary64 :
  let months :=
    map DoubleApp.PeriodRow.income
        (DoubleApp.getPeriodData (isoDate false) DoubleApp.sampleIncomes
                                 monthly 2025) in
  let year :=
    map DoubleApp.PeriodRow.income
        (DoubleApp.getPeriodData (isoDate false) DoubleApp.sampleIncomes
                                 annual 2025) in
  months = [0.1; 0.5; 0; 0; 0; 0; 0; 0; 0; 0; 0; 0]%float
  /\ DoubleApp.total months = 0.59999999999999998%float
  /\ year = [0.60000000000000009%float]
  /\ (DoubleApp.total months =? 0.60000000000000009)%float = false.
Proof.
  repeat split; vm_compute; reflexivity.
Qed.

(** C8 at a host behind UTC.  The date string "2026-01-01" is read as
    midnight UTC, which is still 31 December 2025 there: the transaction is
    counted in the report of 2025, in the annual row and in the row of
    December, although the year of its date is 2026. *)
Theorem getPeriodData_counts_next_year_behind_UTC :
  getYear (isoDate true (date sampleNewYear)) = Some 2025%Z
  /\ map (fun r => Qred (PeriodRow.expenses r))
         (getPeriodData (isoDate true) [sampleNewYear] annual 2025)
     = [Qred 7]
  /\ map (fun r => Qred (PeriodRow.expenses r))
         (getPeriodData (isoDate true) [sampleNewYear] monthly 2025)
     = map Qred [0; 0; 0; 0; 0; 0; 0; 0; 0; 0; 0; 7]
  /\ getPeriodData (isoDate true) ([] ++ sampleNewYear :: []) annual 2025
     <> getPeriodData (isoDate true) ([] ++ []) annual 2025
  /\ map (fun r => Qred (PeriodRow.expenses r))
         (getPeriodData (isoDate false) [sampleNewYear] annual 2025)
     = [Qred 0].
Proof.
  repeat split; try (vm_compute; reflexivity). vm_compute. discriminate.
Qed.

Example getPeriodData_sample_quarterly :
  let rows := getPeriodData (isoDate false) sampleTransactions quarterly 2025 in
  map PeriodRow.label rows
  = ["1º Trimestre"; "2º Trimestre"; "3º Trimestre"; "4º Trimestre"]%string
  /\ map Qred (map PeriodRow.income rows) = map Qred [3450.5; 0; 0; 0]
  /\ map Qred (map PeriodRow.expenses rows) = map Qred [1200; 0; 85.4; 40].
Proof. repeat split; vm_compute; reflexivity. Qed.

(** ** Recurrence end dates *)

Lemma monthIndex_range (m : Month) : (0 <= monthIndex m < 12)%Z.
Proof. destruct m; cbn; lia. Qed.

Lemma monthOfIndex_monthIndex (m : Month) : monthOfIndex (monthIndex m) = m.
Proof. now destruct m. Qed.




Section Recurrence.

Variable newDate : string -> JsDate.

(** C7, as the code has it.  With one installment no month is added: the
    resolver answers what formatting the start date itself as [MM/yyyy]
    answers, that is its month and year as the host reads the string, and
    throws when the string is not a date. *)
Theorem getEndDate_single_installment (startDate : string) :
  addMonths (newDate startDate) (1 - 1) = newDate startDate
  /\ getEndDate newDate startDate 1 = format_MM_yyyy (newDate startDate).
Proof.
  unfold getEndDate, addMonths.
  destruct (newDate startDate) as [|c]; split; reflexivity.
Qed.


End Recurrence.

(** C7, as stated, fails: for the start date "2025-01-15" and one
    installment the resolver answers "01/2025", which is not the start
    date; read in a time zone behind UTC, "2025-01-01" even gives the month
    before. *)
Lemma getEndDate_single_installment_not_start_date :
  getEndDate (isoDate false) "2025-01-15" 1 = Returns "01/2025"%string
  /\ getEndDate (isoDate false) "2025-01-15" 1 <> Returns "2025-01-15"%string
  /\ getEndDate (isoDate true) "2025-01-01" 1 = Returns "12/2024"%string.
Proof.
  repeat split; try (vm_compute; reflexivity). vm_compute. discriminate.
Qed.


Example getEndDate_jan31_behind_UTC :
  getEndDate (isoDate true) "2025-01-31" 2 = Returns "02/2025"%string.
Proof. vm_compute. reflexivity. Qed.

Example getEndDate_twelve_installments :
  getEndDate (isoDate false) "2025-01-15" 12 = Returns "12/2025"%string.
Proof. vm_compute. reflexivity. Qed.

Example getEndDate_into_next_year :
  getEndDate (isoDate false) "2025-11-30" 4 = Returns "02/2026"%string
  /\ addMonths (isoDate false "2023-11-30") 4
     = ValidDate {| fullYear := 2024; month := Mar; dayOfMonth := 30 |}
  /\ addMonths (isoDate false "2023-11-30") 3
     = ValidDate {| fullYear := 2024; month := Feb; dayOfMonth := 29 |}.
Proof. repeat split; vm_compute; reflexivity. Qed.

Example getEndDate_not_a_date :
  getEndDate (isoDate false) "soon" 3 = ThrowsRangeError.
Proof. reflexivity. Qed.

(** * Further properties of the tax estimator *)



(** X2.  For a non-negative gross income the two deductions together are
    between 0 and 27.5% of it, and the net lies between 72.5% of the gross
    income and the gross income. *)
Theorem calculateTaxes_deductions_bounded (g : Q) :
  0 <= g ->
  0 <= inss (calculateTaxes g) + irpf (calculateTaxes g)
  /\ inss (calculateTaxes g) + irpf (calculateTaxes g) <= g * 0.275
  /\ g * 0.725 <= net (calculateTaxes g)
  /\ net (calculateTaxes g) <= g.
Proof.
  intros Hg. cbn [calculateTaxes inss irpf net].
  assert (Hi : 0 <= inssOf g) by now apply inssOf_nonneg.
  assert (Hr : 0 <= irpfOf (g - inssOf g)) by apply irpfOf_nonneg.
  assert (Hd : inssOf g + irpfOf (g - inssOf g) <= g * 0.275).
  { clear Hi Hr. unfold inssOf. qcases; unfold irpfOf; qcases; lra. }
  repeat split; lra.
Qed.

Lemma calculateTaxes_deductions_bounded_witness :
  0 <= inss (calculateTaxes 5000) + irpf (calculateTaxes 5000)
  /\ inss (calculateTaxes 5000) + irpf (calculateTaxes 5000) <= 5000 * 0.275
  /\ 5000 * 0.725 <= net (calculateTaxes 5000)
  /\ net (calculateTaxes 5000) <= 5000.
Proof.
  apply (calculateTaxes_deductions_bounded 5000). vm_compute; discriminate.
Defined.

(** X3.  No income tax is withheld exactly up to the gross income
    2238.02 / 0.91 (about 2459.36), the income whose taxable base is
    2259.20. *)
Theorem calculateTaxes_irpf_exempt_iff (g : Q) :
  irpf (calculateTaxes g) == 0 <-> g <= 2238.02 / 0.91.
Proof.
  assert (E : 2238.02 / 0.91 == 223802 # 91) by (vm_compute; reflexivity).
  rewrite E. cbn [calculateTaxes irpf]. unfold inssOf.
  qcases; unfold irpfOf; qcases; split; intros H; lra.
Qed.

(** X4.  A higher gross income never lowers the net by more than 0.004,
    the step of the income-tax table at 4664.68. *)
Theorem calculateTaxes_net_near_monotone (g1 g2 : Q) :
  g1 <= g2 -> net (calculateTaxes g1) - 0.004 <= net (calculateTaxes g2).
Proof.
  intros Hg. cbn [calculateTaxes net].
  pose proof (baseCalculo_monotone g1 g2 Hg) as Hb.
  revert Hb. generalize (g1 - inssOf g1), (g2 - inssOf g2). intros b1 b2 Hb.
  assert (H : b1 - irpfOf b1 - 0.004 <= b2 - irpfOf b2).
  { unfold irpfOf. qcases; lra. }
  lra.
Qed.

(** The step is taken: a raise from 5213.37 to 5213.372 lowers the net. *)
Lemma calculateTaxes_net_near_monotone_witness :
  net (calculateTaxes 5213.37) - 0.004 <= net (calculateTaxes 5213.372).
Proof.
  apply (calculateTaxes_net_near_monotone 5213.37 5213.372).
  vm_compute; discriminate.
Defined.

Example calculateTaxes_raise_lowers_net :
  5213.37 < 5213.372
  /\ net (calculateTaxes 5213.372) < net (calculateTaxes 5213.37).
Proof. split; vm_compute; reflexivity. Qed.

(** * The deduction bars of the tax tab *)

Lemma barWidth_nonzero (x total : Q) :
  ~ total == 0 -> barWidth x total = Some (Qmin ((x / total) * 100 * 5) 100).
Proof.
  intros Hne. unfold barWidth.
  destruct (Qeq_bool total 0) eqn:E; [|reflexivity].
  apply Qeq_bool_iff in E. contradiction.
Qed.

Lemma ratio_le (x g b : Q) : 0 < g -> x <= b * g -> x / g <= b.
Proof. intros Hg Hx. now apply Qle_shift_div_r. Qed.

Lemma ratio_ge (x g b : Q) : 0 < g -> b * g <= x -> b <= x / g.
Proof. intros Hg Hx. now apply Qle_shift_div_l. Qed.

Lemma ratio_ge_inv (x g b : Q) : 0 < g -> b <= x / g -> b * g <= x.
Proof.
  intros Hg Hb.
  assert (E : x / g * g == x).
  { rewrite Qmult_comm. apply Qmult_div_r. lra. }
  rewrite <- E. apply Qmult_le_compat_r; lra.
Qed.

Lemma inssOf_share (g : Q) :
  0 < g -> 0 < inssOf g /\ inssOf g <= 0.11674 * g.
Proof.
  intros Hg. unfold inssOf. qcases; split; lra.
Qed.

(** X5.  With a positive gross income the pension bar is never full: its
    width is the contribution's share of the income times 500, which stays
    above 0 and below 58.37 percent, so the cap at 100 never applies. *)
Theorem inssBarWidth_never_full (summary : Summary.t) :
  0 < totalGrossIncome summary ->
  exists w : Q,
    inssBarWidth summary = Some w
    /\ w == inss (taxes summary) / totalGrossIncome summary * 100 * 5
    /\ 0 < w /\ w <= 58.37.
Proof.
  intros Hg. unfold inssBarWidth, taxes. cbn [calculateTaxes inss].
  set (g := totalGrossIncome summary) in *.
  destruct (inssOf_share g Hg) as [Hpos Hle].
  assert (Hlo : 0 < inssOf g / g).
  { apply Qlt_shift_div_l; lra. }
  assert (Hhi : inssOf g / g <= 0.11674) by now apply ratio_le.
  rewrite barWidth_nonzero by lra. eexists. split; [reflexivity|].
  assert (Hmin : Qmin (inssOf g / g * 100 * 5) 100 == inssOf g / g * 100 * 5).
  { apply Q.min_l. lra. }
  rewrite Hmin. repeat split; lra.
Qed.

Lemma inssBarWidth_never_full_witness :
  exists w : Q,
    inssBarWidth sampleSummary = Some w
    /\ w == inss (taxes sampleSummary) / totalGrossIncome sampleSummary
            * 100 * 5
    /\ 0 < w /\ w <= 58.37.
Proof.
  apply (inssBarWidth_never_full sampleSummary). vm_compute. reflexivity.
Defined.

Lemma irpf_fifth_iff (g : Q) :
  0 < g ->
  (0.2 * g <= irpfOf (g - inssOf g) <-> 1145.93375 / 0.075 <= g).
Proof.
  intros Hg.
  assert (E : 1145.93375 / 0.075 == 916747 # 60) by (vm_compute; reflexivity).
  rewrite E. unfold inssOf.
  qcases; unfold irpfOf; qcases; split; intros H; lra.
Qed.

(** X6.  With a positive gross income the income-tax bar lies between 0
    and 100 percent, and it is full exactly from the gross income
    1145.93375 / 0.075 (about 15279.12) on, where the tax reaches a fifth
    of the income. *)
Theorem irpfBarWidth_full_iff (summary : Summary.t) :
  0 < totalGrossIncome summary ->
  exists w : Q,
    irpfBarWidth summary = Some w
    /\ 0 <= w /\ w <= 100
    /\ (w == 100 <-> 1145.93375 / 0.075 <= totalGrossIncome summary).
Proof.
  intros Hg. unfold irpfBarWidth, taxes. cbn [calculateTaxes irpf].
  set (g := totalGrossIncome summary) in *.
  set (x := irpfOf (g - inssOf g)).
  assert (Hx : 0 <= x) by apply irpfOf_nonneg.
  assert (Hr : 0 <= x / g) by (apply ratio_ge; lra).
  rewrite barWidth_nonzero by lra. eexists. split; [reflexivity|].
  split; [apply Q.min_glb; lra|]. split; [apply Q.le_min_r|].
  rewrite Q.min_r_iff, <- (irpf_fifth_iff g Hg). fold x. split; intros H.
  - apply ratio_ge_inv; lra.
  - assert (0.2 <= x / g) by (apply ratio_ge; lra). lra.
Qed.

Lemma irpfBarWidth_full_iff_witness :
  exists w : Q,
    irpfBarWidth sampleSummary = Some w
    /\ 0 <= w /\ w <= 100
    /\ (w == 100 <-> 1145.93375 / 0.075 <= totalGrossIncome sampleSummary).
Proof.
  apply (irpfBarWidth_full_iff sampleSummary). vm_compute. reflexivity.
Defined.

(** X7.  With a gross income of 0 both deductions are 0 and neither bar
    has a width: the quotient 0/0 is not a number. *)
Theorem barWidths_without_income (summary : Summary.t) :
  totalGrossIncome summary == 0 ->
  totalDeducoes summary == 0
  /\ inssBarWidth summary = None
  /\ irpfBarWidth summary = None.
Proof.
  intros Hg. unfold totalDeducoes, inssBarWidth, irpfBarWidth, taxes.
  cbn [calculateTaxes inss irpf].
  set (g := totalGrossIncome summary) in *.
  assert (Hi : inssOf g == 0) by (unfold inssOf; qcases; lra).
  assert (Hr : irpfOf (g - inssOf g) == 0).
  { unfold irpfOf. qcases; try lra; exfalso; lra. }
  unfold barWidth. apply Qeq_bool_iff in Hg. rewrite Hg.
  split; [lra|].
  split; destruct (Qlt_le_dec 0 _); try reflexivity; exfalso; lra.
Qed.

Lemma barWidths_without_income_witness :
  let empty := {| Summary.income := 0; Summary.variable_income := 0;
                  Summary.fixed := 0; Summary.variable := 0;
                  Summary.invested := 0 |} in
  totalDeducoes empty == 0
  /\ inssBarWidth empty = None
  /\ irpfBarWidth empty = None.
Proof.
  apply (barWidths_without_income
           {| Summary.income := 0; Summary.variable_income := 0;
              Summary.fixed := 0; Summary.variable := 0;
              Summary.invested := 0 |}).
  vm_compute. reflexivity.
Defined.

(** * Further properties of the projection *)

(** Month and year reached by [addMonths], whatever the day of month. *)
Lemma addMonthsValid_month_year (c : CalendarDate) (amount : Z) :
  month (addMonthsValid c amount) = monthOfIndex (monthIndex (month c) + amount)
  /\ fullYear (addMonthsValid c amount)
     = (fullYear c + (monthIndex (month c) + amount) / 12)%Z.
Proof.
  unfold addMonthsValid. destruct (amount =? 0)%Z eqn:E.
  - apply Z.eqb_eq in E. subst amount. rewrite Z.add_0_r.
    rewrite monthOfIndex_monthIndex.
    rewrite (Z.div_small _ 12) by apply monthIndex_range. split; [reflexivity|lia].
  - unfold lastDayBefore.
    replace (monthIndex (month c) + amount + 1 - 1)%Z
      with (monthIndex (month c) + amount)%Z by lia.
    destruct (_ >=? _)%Z; split; reflexivity.
Qed.

(** X8.  The six labels of the projection are six consecutive calendar
    months beginning with the current one, whatever the day of the month:
    a short month is never skipped. *)
Theorem projectionData_consecutive_months
        (today : CalendarDate) (transactions : list Transaction)
        (summary : Summary.t) :
  map ProjectionPoint.month (projectionData today transactions summary)
  = map (fun i => format_MMM_ptBR (monthOfIndex (monthIndex (month today) + i)))
        [0; 1; 2; 3; 4; 5]%Z.
Proof.
  unfold projectionData. rewrite map_map. apply map_ext. intros i.
  cbn [projectionPoint ProjectionPoint.month].
  now destruct (addMonthsValid_month_year today i) as [-> _].
Qed.

Example projectionData_from_the_31st :
  map ProjectionPoint.month
      (projectionData {| fullYear := 2025; month := Jan; dayOfMonth := 31 |}
                      sampleTransactions sampleSummary)
  = ["jan"; "fev"; "mar"; "abr"; "mai"; "jun"]%string.
Proof. reflexivity. Qed.

Lemma filter_recurring (f : Transaction -> bool) (xs : list Transaction) :
  filter (fun t => is_recurring t && f t) (filter is_recurring xs)
  = filter (fun t => is_recurring t && f t) xs.
Proof.
  rewrite filter_filter_and. apply filter_ext. intros t.
  now destruct (is_recurring t).
Qed.

(** X9.  The projection reads the recurring transactions only: removing
    every non-recurring transaction leaves all six points, and the one-year
    figure, as they are. *)
Theorem projectionData_reads_recurring_only
        (today : CalendarDate) (transactions : list Transaction)
        (summary : Summary.t) :
  projectionData today (filter is_recurring transactions) summary
  = projectionData today transactions summary
  /\ estimativaEm1Ano today (filter is_recurring transactions) summary
     = estimativaEm1Ano today transactions summary.
Proof.
  assert (H : projectionData today (filter is_recurring transactions) summary
              = projectionData today transactions summary).
  { unfold projectionData. apply map_ext. intros i.
    unfold projectionPoint, recurringIncome, recurringExpenses.
    now rewrite !filter_recurring. }
  split; [exact H|]. unfold estimativaEm1Ano. now rewrite H.
Qed.

Lemma filter_none {A : Type} (f : A -> bool) (xs : list A) :
  Forall (fun x => f x = false) xs -> filter f xs = [].
Proof.
  induction 1 as [|x xs Hx _ IH]; [reflexivity|].
  cbn [filter]. now rewrite Hx.
Qed.

(** X10.  Without any recurring transaction the projection is flat: each
    of the six balances is the current net balance, and the one-year
    figure is twice that balance. *)
Theorem projectionData_without_recurring
        (today : CalendarDate) (transactions : list Transaction)
        (summary : Summary.t) :
  Forall (fun t => is_recurring t = false) transactions ->
  Forall (fun p => ProjectionPoint.balance p == currentNetBalance summary)
         (projectionData today transactions summary)
  /\ exists v : Q,
       estimativaEm1Ano today transactions summary = Some v
       /\ v == currentNetBalance summary * 2.
Proof.
  intros Hnone.
  assert (Hr : forall f : Transaction -> bool,
             filter (fun t => is_recurring t && f t) transactions = []).
  { intros f. apply filter_none. revert Hnone. apply Forall_impl.
    intros t ->. reflexivity. }
  assert (Hb : forall i : Z,
             ProjectionPoint.balance
               (projectionPoint today transactions summary i)
             == currentNetBalance summary).
  { intros i. unfold projectionPoint, recurringIncome, recurringExpenses.
    cbn [ProjectionPoint.balance]. rewrite !Hr, sumAmounts_nil. lra. }
  split.
  - unfold projectionData. apply Forall_map, Forall_forall. intros i _. apply Hb.
  - eexists. split; [reflexivity|]. rewrite Hb. reflexivity.
Qed.

Lemma projectionData_without_recurring_witness :
  Forall (fun p => ProjectionPoint.balance p == currentNetBalance sampleSummary)
         (projectionData sampleToday [sampleBonus; sampleMarket] sampleSummary)
  /\ exists v : Q,
       estimativaEm1Ano sampleToday [sampleBonus; sampleMarket] sampleSummary
       = Some v
       /\ v == currentNetBalance sampleSummary * 2.
Proof.
  apply (projectionData_without_recurring sampleToday
           [sampleBonus; sampleMarket] sampleSummary).
  repeat constructor.
Defined.

(** * Further properties of the period reports *)

Lemma Forall2_maps {A B C : Type} (R : B -> C -> Prop) (f : A -> B)
      (g : A -> C) (xs : list A) :
  (forall x, R (f x) (g x)) -> Forall2 R (map f xs) (map g xs).
Proof.
  intros H. induction xs; cbn [map]; constructor; auto.
Qed.

Lemma Forall2_index_maps {A B C : Type} (R : A -> B * C -> Prop)
      (f : A -> B) (g : A -> C) (xs : list A) :
  (forall x, R x (f x, g x)) ->
  Forall2 R xs (combine (map f xs) (map g xs)).
Proof.
  intros H. induction xs; cbn [map combine]; constructor; auto.
Qed.

Lemma total_map_saldo (rows : list PeriodRow.t) :
  total (map saldo rows)
  == total (map PeriodRow.income rows) - total (map PeriodRow.expenses rows).
Proof.
  induction rows as [|r rows IH]; cbn [map total fold_right]; [lra|].
  fold (total (map saldo rows)). fold (total (map PeriodRow.income rows)).
  fold (total (map PeriodRow.expenses rows)). rewrite IH. unfold saldo. lra.
Qed.

Lemma three_buckets (f P1 P2 P3 P : Transaction -> bool)
      (xs : list Transaction) :
  (forall t, ind (P1 t) + ind (P2 t) + ind (P3 t) == ind (P t)) ->
  sumAmounts (filter f (filter P xs))
  == sumAmounts (filter f (filter P1 xs))
     + sumAmounts (filter f (filter P2 xs))
     + sumAmounts (filter f (filter P3 xs)).
Proof.
  intros H. rewrite <- (buckets_partition f [P1; P2; P3] P xs).
  - cbn [map total fold_right]. lra.
  - intros t. cbn [map total fold_right]. rewrite <- H. lra.
Qed.

Lemma two_buckets (f P1 P2 P : Transaction -> bool) (xs : list Transaction) :
  (forall t, ind (P1 t) + ind (P2 t) == ind (P t)) ->
  sumAmounts (filter f (filter P xs))
  == sumAmounts (filter f (filter P1 xs))
     + sumAmounts (filter f (filter P2 xs)).
Proof.
  intros H. rewrite <- (buckets_partition f [P1; P2] P xs).
  - cbn [map total fold_right]. lra.
  - intros t. cbn [map total fold_right]. rewrite <- H. lra.
Qed.

Section ReportsFurther.

Variable newDate : string -> JsDate.
Variable currentYear : Z.
Variable transactions : list Transaction.

Let report (p : Period) : list PeriodRow.t :=
  getPeriodData newDate transactions p currentYear.

Ltac by_date t :=
  intros t; cbv beta zeta; unfold getQuarter;
  (destruct (newDate (date t)) as [|[y m dd]];
   cbn [getMonth getYear strictEq month fullYear];
   [|destruct (y =? currentYear)%Z; destruct m]);
  vm_compute; reflexivity.

(** X13.  In exact arithmetic coarser rows are sums of finer ones: each
    quarter is the sum of its three months and each half-year the sum of
    its two quarters, for the income and for the expenses. *)
Theorem getPeriodData_coarser_rows_add_up :
  Forall2 Qeq (map PeriodRow.income (report quarterly))
          (sumByThree (map PeriodRow.income (report monthly)))
  /\ Forall2 Qeq (map PeriodRow.expenses (report quarterly))
             (sumByThree (map PeriodRow.expenses (report monthly)))
  /\ Forall2 Qeq (map PeriodRow.income (report semi_annual))
             (sumByTwo (map PeriodRow.income (report quarterly)))
  /\ Forall2 Qeq (map PeriodRow.expenses (report semi_annual))
             (sumByTwo (map PeriodRow.expenses (report quarterly))).
Proof.
  unfold report, getPeriodData.
  cbn [map sumByThree sumByTwo periodRow PeriodRow.income PeriodRow.expenses].
  repeat split; repeat constructor;
    first [ apply three_buckets | apply two_buckets ]; by_date t.
Qed.

Let inYear (t : Transaction) : bool :=
  strictEq (getYear (newDate (date t))) currentYear.
Let inMonth (i : Z) (t : Transaction) : bool :=
  let d := newDate (date t) in
  strictEq (getMonth d) i && strictEq (getYear d) currentYear.
Let inQuarter (i : Z) (t : Transaction) : bool :=
  let d := newDate (date t) in
  strictEq (getQuarter d) i && strictEq (getYear d) currentYear.
Let inSemester (i : Z) (t : Transaction) : bool :=
  let d := newDate (date t) in
  let month_ := getMonth d in
  (if (i =? 1)%Z then ltNum month_ 6 else geNum month_ 6)
  && strictEq (getYear d) currentYear.

Lemma report_totals (f : Transaction -> bool) (p : Period) :
  total (map (fun P => sumAmounts (filter f (filter P transactions)))
             match p with
             | monthly => map inMonth [0; 1; 2; 3; 4; 5; 6; 7; 8; 9; 10; 11]%Z
             | quarterly => map inQuarter [1; 2; 3; 4]%Z
             | semi_annual => map inSemester [1; 2]%Z
             | annual => [inYear]
             end)
  == sumAmounts (filter f (filter inYear transactions)).
Proof.
  apply buckets_partition. unfold inYear, inMonth, inQuarter, inSemester.
  destruct p; cbn [map total fold_right]; by_date t.
Qed.

(** X14.  In exact arithmetic and in every granularity the column "Saldo"
    adds up to the income of the year minus the expenses of the year. *)
Theorem getPeriodData_saldo_adds_up (p : Period) :
  total (map saldo (report p))
  == sumAmounts (filter isIncome (filter inYear transactions))
     - sumAmounts (filter isExpense (filter inYear transactions)).
Proof.
  rewrite total_map_saldo.
  rewrite <- (report_totals isIncome p), <- (report_totals isExpense p).
  destruct p; reflexivity.
Qed.

(** X15.  In exact arithmetic a transaction read as a day of month [m] of
    the requested year adds its amount to the monthly row [m] alone, to the
    income of that row when it is of income type and to its expenses
    otherwise; no other row and no label changes. *)
Theorem getPeriodData_monthly_attribution (t : Transaction) (c : CalendarDate) :
  newDate (date t) = ValidDate c ->
  fullYear c = currentYear ->
  Forall2
    (fun (i : Z) (rows : PeriodRow.t * PeriodRow.t) =>
       let (new, old) := rows in
       let here := (i =? monthIndex (month c))%Z in
       PeriodRow.label new = PeriodRow.label old
       /\ PeriodRow.income new
          == PeriodRow.income old
             + (if here && isIncome t then amount t else 0)
       /\ PeriodRow.expenses new
          == PeriodRow.expenses old
             + (if here && isExpense t then amount t else 0))
    [0; 1; 2; 3; 4; 5; 6; 7; 8; 9; 10; 11]%Z
    (combine (getPeriodData newDate (t :: transactions) monthly currentYear)
             (report monthly)).
Proof.
  intros Hdate Hyear. unfold report, getPeriodData.
  apply Forall2_index_maps. intros i.
  cbn [periodRow PeriodRow.label PeriodRow.income PeriodRow.expenses].
  split; [reflexivity|].
  rewrite !bucket_sum_cons. rewrite Hdate.
  cbn [getMonth getYear strictEq]. rewrite Hyear, Z.eqb_refl, andb_true_r.
  rewrite (Z.eqb_sym i). unfold ind.
  destruct (monthIndex (month c) =? i)%Z, (isIncome t), (isExpense t);
    cbn [andb]; split; lra.
Qed.

(** X16.  In exact arithmetic the report does not depend on the order of
    the transactions: a reordered list gives rows with the same labels and
    the same totals. *)
Theorem getPeriodData_order_independent
        (reordered : list Transaction) (p : Period) :
  Permutation transactions reordered ->
  Forall2 sameRow (report p)
          (getPeriodData newDate reordered p currentYear).
Proof.
  intros Hperm.
  assert (Hrow : forall (l : string) (P : Transaction -> bool),
             sameRow (periodRow l (filter P transactions))
                     (periodRow l (filter P reordered))).
  { intros l P. unfold sameRow, periodRow.
    cbn [PeriodRow.label PeriodRow.income PeriodRow.expenses].
    rewrite !filter_filter_and.
    split; [reflexivity|].
    split; now apply sumAmounts_filter_Permutation. }
  unfold report. destruct p; cbn [getPeriodData];
    [ apply Forall2_maps; intros i; apply Hrow ..
    | constructor; [apply Hrow | constructor] ].
Qed.

End ReportsFurther.

Lemma getPeriodData_monthly_attribution_witness :
  Forall2
    (fun (i : Z) (rows : PeriodRow.t * PeriodRow.t) =>
       let (new, old) := rows in
       let here := (i =? 6)%Z in
       PeriodRow.label new = PeriodRow.label old
       /\ PeriodRow.income new
          == PeriodRow.income old
             + (if here && isIncome sampleMarket then amount sampleMarket else 0)
       /\ PeriodRow.expenses new
          == PeriodRow.expenses old
             + (if here && isExpense sampleMarket then amount sampleMarket
                else 0))
    [0; 1; 2; 3; 4; 5; 6; 7; 8; 9; 10; 11]%Z
    (combine (getPeriodData (isoDate false) (sampleMarket :: [sampleSalary])
                            monthly 2025)
             (getPeriodData (isoDate false) [sampleSalary] monthly 2025)).
Proof.
  apply (getPeriodData_monthly_attribution (isoDate false) 2025 [sampleSalary]
           sampleMarket {| fullYear := 2025; month := Jul; dayOfMonth := 2 |});
    reflexivity.
Defined.

Lemma getPeriodData_order_independent_witness :
  Forall2 sameRow
          (getPeriodData (isoDate false) [sampleSalary; sampleRent] annual 2025)
          (getPeriodData (isoDate false) [sampleRent; sampleSalary] annual 2025).
Proof.
  apply (getPeriodData_order_independent (isoDate false) 2025
           [sampleSalary; sampleRent] [sampleRent; sampleSalary] annual).
  apply perm_swap.
Defined.

(** * Further properties of the recurrence end date *)





Section RecurrenceFurther.

Variable newDate : string -> JsDate.


End RecurrenceFurther.


(** * Category totals: what the chart data holds *)

Lemma entryValue_None {N : Type} (data : list (CategoryEntry.t N))
      (c : string) :
  entryValue data c = None <-> ~ In c (map CategoryEntry.name data).
Proof.
  induction data as [|e data IH]; cbn [entryValue map In]; [tauto|].
  destruct (String.eqb (CategoryEntry.name e) c) eqn:E.
  - apply String.eqb_eq in E. split; [discriminate|tauto].
  - apply String.eqb_neq in E. rewrite IH. tauto.
Qed.

Lemma no_expense_with_label (transactions : list Transaction) (c : string) :
  ~ (exists t, In t transactions /\ isExpense t = true /\ category t = c) ->
  filter (fun t => isExpense t && String.eqb (category t) c) transactions = [].
Proof.
  intros Hno. apply filter_none, Forall_forall. intros t Hin.
  destruct (isExpense t) eqn:He; [|reflexivity].
  destruct (String.eqb (category t) c) eqn:Hc; [|reflexivity].
  exfalso. apply Hno. exists t. apply String.eqb_eq in Hc. auto.
Qed.

Lemma values_are_numbers (entries : list (string * JsValue Q)) :
  Forall (fun kv => exists n, snd kv = Num n) entries ->
  map snd entries = map Num (map (fun kv => numberOf (snd kv)) entries).
Proof.
  induction 1 as [|[k v] entries [n Hn] _ IH]; [reflexivity|].
  cbn [map snd] in *. subst v. now rewrite IH.
Qed.

(** What the chart lists under a label that [Object.prototype] does not
    have: nothing when no expense carries the label, else the number that
    is the sum of the expenses carrying it. *)
Lemma categoryData_label_value (transactions : list Transaction) (c : string) :
  onObjectPrototype c = false ->
  match entryValue (categoryData transactions) c with
  | Some (Num v) =>
      v == sumAmounts
             (filter (fun t => isExpense t && String.eqb (category t) c)
                     transactions)
  | Some _ => False
  | None =>
      filter (fun t => isExpense t && String.eqb (category t) c) transactions
      = []
  end.
Proof.
  intros Hc.
  destruct (entryValue (categoryData transactions) c) as [v|] eqn:E.
  - rewrite categoryData_entryValue in E.
    destruct (category_fold_label c transactions [] Hc) as [Hn Hs];
      [discriminate|].
    fold (categoryTotals transactions) in Hn, Hs.
    destruct (Hn v E) as [n ->]. unfold storedNumber in Hs. rewrite E in Hs.
    cbn [ownProp numberOf] in Hs. lra.
  - apply no_expense_with_label. intros Hex.
    apply entryValue_None in E. apply E, categoryData_In_name.
    split; [|assumption]. intros ->. discriminate Hc.
Qed.

(** C5, as the code has it in exact arithmetic.  When no expense carries a
    label that names a property of [Object.prototype]: income-type
    transactions leave the chart data untouched; every label, the empty one
    included, heads at most one entry, whose value is the sum of the
    expense-type amounts carrying that label; and the values are numbers
    that add up to the sum of all expense-type amounts. *)
Theorem categoryData_groups_expenses (transactions : list Transaction) :
  (forall t, In t transactions -> isExpense t = true ->
             onObjectPrototype (category t) = false) ->
  categoryData transactions = categoryData (filter isExpense transactions)
  /\ (forall t : Transaction, isExpense t = negb (isIncome t))
  /\ NoDup (map CategoryEntry.name (categoryData transactions))
  /\ (forall c : string,
        match entryValue (categoryData transactions) c with
        | Some (Num v) =>
            v == sumAmounts
                   (filter (fun t => isExpense t && String.eqb (category t) c)
                           transactions)
        | Some _ => False
        | None =>
            filter (fun t => isExpense t && String.eqb (category t) c)
                   transactions
            = []
        end)
  /\ exists totals : list Q,
       map CategoryEntry.value (categoryData transactions) = map Num totals
       /\ total totals == sumAmounts (filter isExpense transactions).
Proof.
  intros Hsafe.
  pose proof (objectEntries_Permutation (categoryTotals transactions)) as Hp.
  split; [|split; [|split; [|split]]].
  - unfold categoryData, categoryTotals.
    now rewrite category_fold_drops_income.
  - apply isExpense_not_isIncome.
  - rewrite categoryData_names.
    eapply Permutation_NoDup; [|apply categoryTotals_NoDup].
    apply Permutation_map, Permutation_sym, Hp.
  - intros c. destruct (onObjectPrototype c) eqn:Hc.
    + assert (Hno : ~ (exists t, In t transactions /\ isExpense t = true
                                 /\ category t = c)).
      { intros [t [Hin [He Hk]]]. subst c.
        rewrite (Hsafe t Hin He) in Hc. discriminate. }
      assert (E : entryValue (categoryData transactions) c = None).
      { apply entryValue_None. rewrite categoryData_In_name. tauto. }
      rewrite E. now apply no_expense_with_label.
    + now apply categoryData_label_value.
  - destruct (category_fold_total transactions [] Hsafe) as [Hn Hs];
      [constructor|]. fold (categoryTotals transactions) in Hn, Hs.
    eexists. split.
    + rewrite categoryData_values. apply values_are_numbers.
      eapply Permutation_Forall; [apply Permutation_sym, Hp|exact Hn].
    + rewrite (total_Permutation _ _ (Permutation_map _ Hp)), Hs.
      cbn [map total fold_right]. lra.
Qed.

Lemma categoryData_groups_expenses_witness :
  categoryData sampleTransactions
  = categoryData (filter isExpense sampleTransactions)
  /\ (forall t : Transaction, isExpense t = negb (isIncome t))
  /\ NoDup (map CategoryEntry.name (categoryData sampleTransactions))
  /\ (forall c : string,
        match entryValue (categoryData sampleTransactions) c with
        | Some (Num v) =>
            v == sumAmounts
                   (filter (fun t => isExpense t && String.eqb (category t) c)
                           sampleTransactions)
        | Some _ => False
        | None =>
            filter (fun t => isExpense t && String.eqb (category t) c)
                   sampleTransactions
            = []
        end)
  /\ exists totals : list Q,
       map CategoryEntry.value (categoryData sampleTransactions)
       = map Num totals
       /\ total totals == sumAmounts (filter isExpense sampleTransactions).
Proof.
  apply (categoryData_groups_expenses sampleTransactions).
  intros t Hin He.
  repeat (destruct Hin as [<-|Hin]; [first [reflexivity|discriminate He]|]).
  destruct Hin.
Defined.

(** C5, as stated, fails.  An expense under the label "__proto__" leaves no
    entry, so the chart data adds up to 5 while the expenses add up to 105;
    and on binary64 numbers the expenses 0.1 under one label and 0.2, 0.3
    under another give the totals 0.1 and 0.5, which add up to
    0.59999999999999998, while the three amounts add up to
    0.60000000000000009. *)
Lemma categoryData_totals_miss_expense_sum :
  categoryData [sampleProtoExpense; sampleLazer]
  = [ {| CategoryEntry.name := "Lazer"; CategoryEntry.value := Num (0 + 5) |} ]
  /\ sumAmounts (filter isExpense [sampleProtoExpense; sampleLazer]) == 105
  /\ DoubleApp.categoryData DoubleApp.sampleExpenses
     = [ {| CategoryEntry.name := "A"; CategoryEntry.value := Num 0.1%float |};
         {| CategoryEntry.name := "B"; CategoryEntry.value := Num 0.5%float |} ]
  /\ DoubleApp.total [0.1; 0.5]%float = 0.59999999999999998%float
  /\ DoubleApp.sumAmounts (filter DoubleApp.isExpense DoubleApp.sampleExpenses)
     = 0.60000000000000009%float
  /\ (DoubleApp.total [0.1; 0.5]
      =? DoubleApp.sumAmounts
           (filter DoubleApp.isExpense DoubleApp.sampleExpenses))%float
     = false.
Proof.
  repeat split; vm_compute; reflexivity.
Qed.

(** A label that names a function of [Object.prototype] is listed with a
    string: the text of the function followed by the amounts; and a label
    that is an array index is listed first. *)
Example categoryData_constructor_label :
  categoryData [sampleLazer; sampleConstructorExpense; sampleYear2024;
                sampleConstructorExpense]
  = [ {| CategoryEntry.name := "2024"; CategoryEntry.value := Num (0 + 30) |};
      {| CategoryEntry.name := "Lazer"; CategoryEntry.value := Num (0 + 5) |};
      {| CategoryEntry.name := "constructor";
         CategoryEntry.value := Text "constructor" [100; 100] |} ].
Proof. reflexivity. Qed.

Example categoryData_sample :
  categoryData sampleTransactions
  = [ {| CategoryEntry.name := "Moradia";
         CategoryEntry.value := Num (0 + 1200 + 1100) |};
      {| CategoryEntry.name := "";
         CategoryEntry.value := Num (0 + 85.4 + 40) |} ].
Proof. reflexivity. Qed.

(** X11.  A label appears in the category chart exactly when at least one
    expense-type transaction carries it and it is not "__proto__", the one
    label the accumulator cannot store. *)
Theorem categoryData_labels (transactions : list Transaction) (c : string) :
  In c (map CategoryEntry.name (categoryData transactions))
  <-> c <> "__proto__"%string
      /\ exists t, In t transactions /\ isExpense t = true /\ category t = c.
Proof. apply categoryData_In_name. Qed.

(** X12.  In exact arithmetic the chart data does not depend on the order
    of the transactions as far as the labels go that [Object.prototype]
    does not have: a reordered list lists the same labels and, under each
    such label, the same number. *)
Theorem categoryData_order_independent
        (transactions reordered : list Transaction) (c : string) :
  Permutation transactions reordered ->
  onObjectPrototype c = false ->
  (In c (map CategoryEntry.name (categoryData transactions))
   <-> In c (map CategoryEntry.name (categoryData reordered)))
  /\ match entryValue (categoryData transactions) c,
           entryValue (categoryData reordered) c with
     | None, None => True
     | Some (Num v), Some (Num v') => v == v'
     | _, _ => False
     end.
Proof.
  intros Hperm Hc.
  assert (Hin : In c (map CategoryEntry.name (categoryData transactions))
                <-> In c (map CategoryEntry.name (categoryData reordered))).
  { rewrite !categoryData_In_name.
    split; intros [Hp [t [Ht H]]]; (split; [assumption|]); exists t;
      (split; [|assumption]).
    - now apply (Permutation_in _ Hperm).
    - now apply (Permutation_in _ (Permutation_sym Hperm)). }
  split; [exact Hin|].
  pose proof (categoryData_label_value transactions c Hc) as H1.
  pose proof (categoryData_label_value reordered c Hc) as H2.
  pose proof (sumAmounts_filter_Permutation
                (fun t => isExpense t && String.eqb (category t) c)
                _ _ Hperm) as Hs.
  destruct (entryValue (categoryData transactions) c) as [v|] eqn:E1;
    destruct (entryValue (categoryData reordered) c) as [v'|] eqn:E2.
  - destruct v; try contradiction. destruct v'; try contradiction. lra.
  - exfalso. apply entryValue_None in E2. apply E2, Hin.
    destruct (in_dec string_dec c
                (map CategoryEntry.name (categoryData transactions)))
      as [Hy|Hn]; [assumption|].
    apply entryValue_None in Hn. congruence.
  - exfalso. apply entryValue_None in E1. apply E1, Hin.
    destruct (in_dec string_dec c
                (map CategoryEntry.name (categoryData reordered)))
      as [Hy|Hn]; [assumption|].
    apply entryValue_None in Hn. congruence.
  - exact I.
Qed.

Lemma categoryData_order_independent_witness :
  (In "Moradia"%string
      (map CategoryEntry.name (categoryData [sampleRent; sampleMarket]))
   <-> In "Moradia"%string
          (map CategoryEntry.name (categoryData [sampleMarket; sampleRent])))
  /\ match entryValue (categoryData [sampleRent; sampleMarket]) "Moradia",
           entryValue (categoryData [sampleMarket; sampleRent]) "Moradia" with
     | None, None => True
     | Some (Num v), Some (Num v') => v == v'
     | _, _ => False
     end.
Proof.
  apply (categoryData_order_independent
           [sampleRent; sampleMarket] [sampleMarket; sampleRent] "Moradia").
  - apply perm_swap.
  - reflexivity.
Defined.
